(** * Shallow embedding of [src/app/static/script.js]

    The browser client of the dev-agent web app: it fetches the tool
    catalog, renders it as a checklist, creates a session for the checked
    tools and sends queries bound to that session.

    Modelling choices:
    - JS values (and parsed JSON) are [jsval]; objects are association lists
      in insertion order.
    - The page's mutable state (the two globals, the relevant DOM elements,
      whether the button listeners have been registered) is a record
      [state]; the network is a queue of responders, each fetch pops the next
      one and applies it to the request, so responses may depend on the
      request and on time.
    - Handlers run in a state/exception/trace monad [M]: a thrown JS error is
      a [Thrown] result, the observable effects (alerts, console output,
      requests) are a trace of [event]s in chronological order.
    - Each handler runs to completion before the next one starts (the
      browser serialises handler execution). *)

From Stdlib Require Import String List ZArith Bool Lia.
From Stdlib Require Import DecimalString.
Import ListNotations.
Set Warnings "-register-all".
Open Scope string_scope.

(** ** JS values *)

Inductive jsval : Type :=
| JUndefined
| JNull
| JBool (b : bool)
| JNum (n : Z)
| JStr (s : string)
| JArr (xs : list jsval)
| JObj (fields : list (string * jsval)).

(** [v == null] (loose equality): true exactly for null and undefined. *)
Definition js_loose_null (v : jsval) : bool :=
  match v with
  | JUndefined | JNull => true
  | _ => false
  end.

Definition z_to_string (n : Z) : string :=
  NilZero.string_of_int (Z.to_int n).

Fixpoint join (sep : string) (xs : list string) : string :=
  match xs with
  | [] => ""
  | [x] => x
  | x :: xs' => x ++ sep ++ join sep xs'
  end.

(** [String(v)]; array elements that are null or undefined print as "". *)
Fixpoint js_to_string (v : jsval) : string :=
  match v with
  | JUndefined => "undefined"
  | JNull => "null"
  | JBool true => "true"
  | JBool false => "false"
  | JNum n => z_to_string n
  | JStr s => s
  | JArr xs =>
      join "," (map (fun x => match x with
                              | JUndefined | JNull => ""
                              | _ => js_to_string x
                              end) xs)
  | JObj _ => "[object Object]"
  end.

(** Assigning to a nullable DOMString attribute such as [textContent]:
    null and undefined become the empty string. *)
Definition nullable_dom_string (v : jsval) : string :=
  match v with
  | JUndefined | JNull => ""
  | _ => js_to_string v
  end.

(** Assigning to [input.value] ([LegacyNullToEmptyString]). *)
Definition legacy_null_to_empty (v : jsval) : string :=
  match v with
  | JNull => ""
  | _ => js_to_string v
  end.

Fixpoint assoc (k : string) (fs : list (string * jsval)) : option jsval :=
  match fs with
  | [] => None
  | (k', v) :: fs' => if String.eqb k k' then Some v else assoc k fs'
  end.

(** [JSON.stringify] of an object literal drops the undefined-valued keys. *)
Definition json_object (fs : list (string * jsval)) : jsval :=
  JObj (filter (fun kv => negb (match snd kv with JUndefined => true | _ => false end)) fs).

(** ** Requests, the network and the trace *)

Record request : Type := mkRequest {
  req_endpoint : string;
  req_method : string;
  req_body : option jsval   (** the JSON body, before serialisation *)
}.

(** What a fetch resolves to: a transport failure, or a response with its
    status and its body as [response.json()] parses it ([None]: not JSON). *)
Inductive fetch_result : Type :=
| NetFail (msg : string)
| Resp (status : Z) (body : option jsval).

(** [response.ok] *)
Definition http_ok (status : Z) : bool := ((200 <=? status) && (status <=? 299))%Z.

Inductive event : Type :=
| EvAlert (msg : string)
| EvLog (v : jsval)        (** console.log *)
| EvError (msg : string)   (** console.error *)
| EvFetch (r : request).

(** ** DOM and page state *)

Record dom_checkbox : Type := mkCheckbox {
  cb_id : string;
  cb_value : string;
  cb_checked : bool
}.

(** One [div.tool-item] built by [initCheckbox]: checkbox, label, description. *)
Record tool_item : Type := mkToolItem {
  item_class : string;
  item_checkbox : dom_checkbox;
  item_label_for : string;
  item_label_text : string;
  item_desc_text : string;
  item_desc_class : string
}.

Record state : Type := mkState {
  currentSessinId : jsval;             (** let currentSessinId = null *)
  userId : string;                     (** let userId = 'default_user' *)
  tool_container : list tool_item;     (** children of #tool-container *)
  chat_content : string;               (** #chat-content-tmp textContent *)
  query_input : string;                (** #query-input value *)
  listeners_registered : bool;         (** button click listeners attached *)
  net : list (request -> fetch_result) (** responders of the next fetches *)
}.

(** The page as loaded: globals initialised, empty container and display. *)
Definition initial_state (q : string) (n : list (request -> fetch_result)) : state :=
  mkState JNull "default_user" [] "" q false n.

Definition set_currentSessinId (v : jsval) (st : state) : state :=
  mkState v (userId st) (tool_container st) (chat_content st) (query_input st)
          (listeners_registered st) (net st).
Definition set_tool_container (c : list tool_item) (st : state) : state :=
  mkState (currentSessinId st) (userId st) c (chat_content st) (query_input st)
          (listeners_registered st) (net st).
Definition set_chat_content (s : string) (st : state) : state :=
  mkState (currentSessinId st) (userId st) (tool_container st) s (query_input st)
          (listeners_registered st) (net st).
Definition set_query_input (s : string) (st : state) : state :=
  mkState (currentSessinId st) (userId st) (tool_container st) (chat_content st) s
          (listeners_registered st) (net st).
Definition set_listeners_registered (b : bool) (st : state) : state :=
  mkState (currentSessinId st) (userId st) (tool_container st) (chat_content st)
          (query_input st) b (net st).
Definition set_net (n : list (request -> fetch_result)) (st : state) : state :=
  mkState (currentSessinId st) (userId st) (tool_container st) (chat_content st)
          (query_input st) (listeners_registered st) n.

(** ** The handler monad: state, JS exceptions, trace *)

(** A thrown JS error: its constructor name and its [message]. *)
Record exn : Type := mkExn { exn_name : string; exn_message : string }.

Inductive result (A : Type) : Type :=
| Normal (a : A)
| Thrown (e : exn).
Arguments Normal {A} a.
Arguments Thrown {A} e.

Definition M (A : Type) : Type := state -> result A * state * list event.

Definition ret {A} (a : A) : M A := fun st => (Normal a, st, []).

Definition bind {A B} (m : M A) (k : A -> M B) : M B :=
  fun st =>
    match m st with
    | (Normal a, st1, w1) =>
        match k a st1 with (r, st2, w2) => (r, st2, (w1 ++ w2)%list) end
    | (Thrown e, st1, w1) => (Thrown e, st1, w1)
    end.

Notation "x <- m ;; k" := (bind m (fun x => k))
  (at level 61, m at next level, right associativity).
Notation "m ;;; k" := (bind m (fun _ => k))
  (at level 61, right associativity).

Definition throw {A} (e : exn) : M A := fun st => (Thrown e, st, []).

(** [try { m } catch (e) { h e }] *)
Definition try_catch {A} (m : M A) (h : exn -> M A) : M A :=
  fun st =>
    match m st with
    | (Normal a, st1, w1) => (Normal a, st1, w1)
    | (Thrown e, st1, w1) =>
        match h e st1 with (r, st2, w2) => (r, st2, (w1 ++ w2)%list) end
    end.

Definition gets {A} (f : state -> A) : M A := fun st => (Normal (f st), st, []).
Definition modify (f : state -> state) : M unit := fun st => (Normal tt, f st, []).
Definition emit (e : event) : M unit := fun st => (Normal tt, st, [e]).

Definition alert (msg : string) : M unit := emit (EvAlert msg).
Definition console_log (v : jsval) : M unit := emit (EvLog v).
Definition console_error (msg : string) : M unit := emit (EvError msg).

Definition type_error {A} (msg : string) : M A := throw (mkExn "TypeError" msg).

(** Property read [v.k]: a TypeError on null and undefined ([None]), the
    field (or undefined) on an object, undefined on the other values. *)
Definition read_prop (v : jsval) (k : string) : option jsval :=
  match v with
  | JUndefined | JNull => None
  | JObj fs => Some (match assoc k fs with Some x => x | None => JUndefined end)
  | _ => Some JUndefined
  end.

Definition get_prop (v : jsval) (k : string) : M jsval :=
  match read_prop v k with
  | Some x => ret x
  | None =>
      type_error ("Cannot read properties of " ++ js_to_string v ++ " (reading '" ++ k ++ "')")
  end.

(** [await fetch(req)]: the request goes out, the next responder answers;
    a transport failure rejects with a TypeError; no responder left means
    the network is unreachable. *)
Definition fetch (r : request) : M fetch_result :=
  emit (EvFetch r) ;;;
  fun st =>
    match net st with
    | [] => (Thrown (mkExn "TypeError" "Failed to fetch"), st, [])
    | f :: rest =>
        match f r with
        | NetFail m => (Thrown (mkExn "TypeError" m), set_net rest st, [])
        | res => (Normal res, set_net rest st, [])
        end
    end.

(** [await response.json()] *)
Definition response_json (res : fetch_result) : M jsval :=
  match res with
  | Resp _ (Some v) => ret v
  | _ => throw (mkExn "SyntaxError" "Unexpected token in JSON")
  end.

(** ** API calls (script.js lines 3-5 and 16-76) *)

Definition getToolListEndpoint : string := "/tools".
Definition createSessionEndpoint : string := "/sessions/create".
Definition queryEndpoint : string := "/query".

(** [if (!response.ok) throw new Error(`HTTP error! Status: ${response.status}`)] *)
Definition check_ok (response : fetch_result) : M unit :=
  match response with
  | Resp status _ =>
      if negb (http_ok status)
      then throw (mkExn "Error" ("HTTP error! Status: " ++ z_to_string status))
      else ret tt
  | NetFail _ => ret tt
  end.

(** The shared shape of the three calls: fetch, check, parse, return; on any
    error [console.error(e.message)] and fall off the end ([undefined]). *)
Definition call_endpoint (r : request) : M jsval :=
  try_catch
    (response <- fetch r ;;
     check_ok response ;;;
     result <- response_json response ;;
     ret result)
    (fun e => console_error (exn_message e) ;;; ret JUndefined).

Definition callGetToolList : M jsval :=
  call_endpoint (mkRequest getToolListEndpoint "GET" None).

Definition create_session_body (uid : string) (selectedTools : list string) : jsval :=
  json_object [("user_id", JStr uid); ("tool_names", JArr (map JStr selectedTools))].

Definition callCreateSession (selectedTools : list string) : M jsval :=
  uid <- gets userId ;;
  call_endpoint (mkRequest createSessionEndpoint "POST"
                           (Some (create_session_body uid selectedTools))).

Definition query_body (uid query : string) (sid : jsval) : jsval :=
  json_object [("user_id", JStr uid); ("query", JStr query); ("session_id", sid)].

Definition callQuery (query : string) : M jsval :=
  uid <- gets userId ;;
  sid <- gets currentSessinId ;;
  call_endpoint (mkRequest queryEndpoint "POST" (Some (query_body uid query sid))).

(** ** Helpers (script.js lines 78-126) *)

Fixpoint forEach (f : jsval -> M unit) (xs : list jsval) : M unit :=
  match xs with
  | [] => ret tt
  | x :: xs' => f x ;;; forEach f xs'
  end.

(** The wrapper built for one tool; [tool.name] is read for the checkbox id
    and value and for the label, [tool.description] for the paragraph. *)
Definition tool_wrapper (name description : jsval) : tool_item :=
  mkToolItem "tool-item"
             (mkCheckbox (js_to_string name) (legacy_null_to_empty name) false)
             (js_to_string name)
             (nullable_dom_string name)
             (nullable_dom_string description)
             "tool-description".

(** The body of [toolList.tools.forEach(tool => ...)]; property reads of a
    parsed JSON value have no side effect, so each is read once. *)
Definition render_tool (tool : jsval) : M unit :=
  name <- get_prop tool "name" ;;
  description <- get_prop tool "description" ;;
  modify (fun st => set_tool_container (tool_container st ++ [tool_wrapper name description]) st).

Definition initCheckbox : M unit :=
  toolList <- callGetToolList ;;
  tools <- get_prop toolList "tools" ;;
  match tools with
  | JArr xs => forEach render_tool xs
  | _ => type_error "toolList.tools.forEach is not a function"
  end.

(** [querySelectorAll('#tool-container input[type="checkbox"]:checked')]
    in document order, mapped to their values. *)
Definition checked_values (c : list tool_item) : list string :=
  map (fun it => cb_value (item_checkbox it))
      (filter (fun it => cb_checked (item_checkbox it)) c).

Definition getSelectedTools : M (list string) :=
  selectedTools <- gets (fun st => checked_values (tool_container st)) ;;
  console_log (JArr (map JStr selectedTools)) ;;;
  ret selectedTools.

(** ** Handlers (script.js lines 128-156) *)

Definition msg_no_tools : string := "ツールが選択されていません".
Definition msg_no_session : string :=
  "セッションが開始されていません。ツールを選択しセッションを開始してください".
Definition msg_empty_query : string := "何も入力されていません。".

Definition createSession : M unit :=
  selectedTools <- getSelectedTools ;;
  if Nat.eqb (length selectedTools) 0 then alert msg_no_tools
  else
    newSessinId <- callCreateSession selectedTools ;;
    sid <- get_prop newSessinId "session_id" ;;
    modify (set_currentSessinId sid).

Definition sendQuery : M unit :=
  sid <- gets currentSessinId ;;
  if js_loose_null sid then alert msg_no_session
  else
    query <- gets query_input ;;
    if String.eqb query "" then alert msg_empty_query
    else
      console_log (JStr ("現在のセッション: " ++ js_to_string sid)) ;;;
      console_log (JStr ("入力されたクエリ: " ++ query)) ;;;
      result <- callQuery query ;;
      response <- get_prop result "response" ;;
      modify (set_chat_content (nullable_dom_string response)).

(** ** The page (script.js lines 158-170) and user actions *)

(** The DOMContentLoaded listener: render the checklist, then attach the
    two click listeners; if [initCheckbox] throws, they are never attached. *)
Definition onDOMContentLoaded : M unit :=
  initCheckbox ;;;
  modify (set_listeners_registered true).

(** A click on a button runs its handler only once the listener exists. *)
Definition on_click (h : M unit) : M unit :=
  fun st => if listeners_registered st then h st else (Normal tt, st, []).

Fixpoint toggle_nth (n : nat) (c : list tool_item) : list tool_item :=
  match c, n with
  | [], _ => []
  | it :: c', O =>
      let cb := item_checkbox it in
      mkToolItem (item_class it)
                 (mkCheckbox (cb_id cb) (cb_value cb) (negb (cb_checked cb)))
                 (item_label_for it) (item_label_text it)
                 (item_desc_text it) (item_desc_class it) :: c'
  | it :: c', S n' => it :: toggle_nth n' c'
  end.

Inductive op : Type :=
| OpLoad                 (** DOMContentLoaded fires *)
| OpClickCreate          (** click on #create-session-btn *)
| OpClickSend            (** click on #send-message-btn *)
| OpToggle (n : nat)     (** click on the n-th checkbox of the checklist *)
| OpType (q : string).   (** the user edits #query-input *)

Definition handler (o : op) : M unit :=
  match o with
  | OpLoad => onDOMContentLoaded
  | OpClickCreate => on_click createSession
  | OpClickSend => on_click sendQuery
  | OpToggle n => modify (fun st => set_tool_container (toggle_nth n (tool_container st)) st)
  | OpType q => modify (set_query_input q)
  end.

(** Running a sequence of user actions: an exception escaping a handler is
    an unhandled rejection, the page keeps the state reached so far. *)
Fixpoint run_ops (ops : list op) (st : state) : state * list event :=
  match ops with
  | [] => (st, [])
  | o :: ops' =>
      match handler o st with
      | (_, st1, w1) =>
          match run_ops ops' st1 with (st2, w2) => (st2, (w1 ++ w2)%list) end
      end
  end.

(** Server answers used in the examples. *)
Definition respond (status : Z) (body : jsval) : request -> fetch_result :=
  fun _ => Resp status (Some body).

Definition sample_catalog : jsval :=
  JObj [("tools", JArr [JObj [("name", JStr "search"); ("description", JStr "web search")]])].

(** ** Definitions used by the properties *)

(** What a single call yields once the next responder has answered. *)
Definition call_result (res : fetch_result) : jsval * list event :=
  match res with
  | NetFail m => (JUndefined, [EvError m])
  | Resp status b =>
      if http_ok status then
        match b with
        | Some v => (v, [])
        | None => (JUndefined, [EvError "Unexpected token in JSON"])
        end
      else (JUndefined, [EvError ("HTTP error! Status: " ++ z_to_string status)])
  end.

(** A failing fetch outcome: transport failure, non-2xx status, or a body
    that is not JSON. *)
Definition fetch_fails (res : fetch_result) : bool :=
  match res with
  | NetFail _ => true
  | Resp status b => negb (http_ok status) || match b with None => true | Some _ => false end
  end.

Definition next_fetch_fails (st : state) : Prop :=
  match net st with
  | [] => True
  | f :: _ => forall r, fetch_fails (f r) = true
  end.

(** Two states that differ at most in the tool container. *)
Definition same_but_container (st st' : state) : Prop :=
  currentSessinId st' = currentSessinId st /\ chat_content st' = chat_content st /\
  userId st' = userId st /\ query_input st' = query_input st /\
  net st' = net st /\ listeners_registered st' = listeners_registered st.

Definition page_no_session : state :=
  mkState JNull "default_user"
          [tool_wrapper (JStr "search") (JStr "web search")] "" "hello" true [].

(** The next responder answers every request with the given status. *)
Definition next_status (st : state) (status : Z) : Prop :=
  match net st with
  | [] => False
  | f :: _ => forall r, exists b, f r = Resp status b
  end.

Definition http_error_event (status : Z) : event :=
  EvError ("HTTP error! Status: " ++ z_to_string status).

Definition keeps_page (st st' : state) : Prop :=
  currentSessinId st' = currentSessinId st /\ chat_content st' = chat_content st /\
  tool_container st' = tool_container st.

Definition tools_request : request := mkRequest getToolListEndpoint "GET" None.

Definition create_request (uid : string) (selectedTools : list string) : request :=
  mkRequest createSessionEndpoint "POST" (Some (create_session_body uid selectedTools)).

Definition query_request (uid query : string) (sid : jsval) : request :=
  mkRequest queryEndpoint "POST" (Some (query_body uid query sid)).

(** [net st'] is what remains of [net st] after some responders were used. *)
Definition net_suffix (st st' : state) : Prop := exists pre, net st = (pre ++ net st')%list.

(** What the catalog load may change: the container and the network. *)
Definition init_frame (st st' : state) : Prop :=
  currentSessinId st' = currentSessinId st /\ userId st' = userId st /\
  chat_content st' = chat_content st /\ query_input st' = query_input st /\
  listeners_registered st' = listeners_registered st /\ net_suffix st st'.

(** The /sessions/create contract, as far as the stored id depends on it:
    a 2xx answer whose body can be read carries a session_id that is
    neither null nor undefined. *)
Definition create_contract (res : fetch_result) : bool :=
  match res with
  | Resp status (Some b) =>
      if http_ok status then
        match read_prop b "session_id" with
        | Some v => negb (js_loose_null v)
        | None => true
        end
      else true
  | _ => true
  end.

Definition honours_create_contract (f : request -> fetch_result) : Prop :=
  forall r, req_endpoint r = createSessionEndpoint -> create_contract (f r) = true.

Definition page_with_session : state :=
  mkState (JStr "abc123") "default_user"
          [mkToolItem "tool-item" (mkCheckbox "search" "search" true) "search" "search"
                      "web search" "tool-description"]
          "" "" true [respond 200 (JObj [])].

(** A Tool record of the catalog, as the server sends it. *)
Record tool : Type := mkTool { tool_name : string; tool_description : string }.

Definition tool_json (t : tool) : jsval :=
  JObj [("name", JStr (tool_name t)); ("description", JStr (tool_description t))].

Definition catalog_json (ts : list tool) : jsval :=
  JObj [("tools", JArr (map tool_json ts))].

(** The checklist entry expected for a tool. *)
Definition checklist_entry (t : tool) : tool_item :=
  mkToolItem "tool-item" (mkCheckbox (tool_name t) (tool_name t) false)
             (tool_name t) (tool_name t) (tool_description t) "tool-description".

Definition page_create_500 : state :=
  mkState JNull "default_user"
          [mkToolItem "tool-item" (mkCheckbox "search" "search" true) "search" "search"
                      "web search" "tool-description"]
          "" "" true [respond 500 (JObj [])].

Definition search_item (checked : bool) : tool_item :=
  mkToolItem "tool-item" (mkCheckbox "search" "search" checked) "search" "search"
             "web search" "tool-description".

Definition abc123_answer : request -> fetch_result :=
  respond 200 (JObj [("session_id", JStr "abc123")]).

Definition page_before_create : state :=
  mkState JNull "default_user" [search_item true] "" "hello" true [abc123_answer].

Definition page_query : state :=
  mkState (JStr "abc123") "default_user" [search_item true] "old answer" "hello" true
          [respond 200 (JObj [("response", JStr "hello back")])].

Definition search_tool : tool := mkTool "search" "web search".

Definition catalog_answer : request -> fetch_result :=
  respond 200 (catalog_json [search_tool]).

Definition hello_answer : request -> fetch_result :=
  respond 200 (JObj [("response", JStr "hello back")]).

Definition server_error : request -> fetch_result := respond 500 (JObj []).

Definition empty_answer : request -> fetch_result := respond 200 (JObj []).

Definition page_query_500 : state :=
  mkState (JStr "abc123") "default_user" [search_item true] "old answer" "hello" true
          [server_error].

(** A create click that gets as far as storing an id: the listener is
    attached, the selection is non-empty, and the creation request gets a
    2xx answer whose body parses to a value session_id can be read from
    (neither null nor undefined). *)
Definition successful_create (o : op) (st : state) : Prop :=
  o = OpClickCreate /\ listeners_registered st = true /\
  checked_values (tool_container st) <> [] /\
  match net st with
  | [] => False
  | f :: _ =>
      exists status b,
        f (create_request (userId st) (checked_values (tool_container st))) =
          Resp status (Some b) /\
        http_ok status = true /\ read_prop b "session_id" <> None
  end.

(** The three kinds of request the page can send for user [uid]. *)
Definition request_shape (uid : string) (r : request) : Prop :=
  r = tools_request \/ (exists sel, r = create_request uid sel) \/
  (exists q sid, js_loose_null sid = false /\ q <> "" /\ r = query_request uid q sid).

(** [holds R E m]: from any state, running [m] ends in a state related to the
    start by [R], and every event it emits satisfies [E], whether it returns
    or throws. *)
Definition holds (R : state -> state -> Prop) (E : event -> Prop) {A} (m : M A) : Prop :=
  forall st, let '(_, st', evs) := m st in R st st' /\ Forall E evs.

Example load_then_create :
  let st0 := initial_state "hi" [respond 200 sample_catalog;
                                 respond 200 (JObj [("session_id", JStr "abc123")]);
                                 respond 200 (JObj [("response", JStr "hello")])] in
  let '(st, _) := run_ops [OpLoad; OpToggle 0; OpClickCreate; OpClickSend] st0 in
  currentSessinId st = JStr "abc123" /\ chat_content st = "hello".
Proof. vm_compute. split; reflexivity. Qed.

(** ** Properties *)

Lemma call_endpoint_eq (r : request) (st : state) :
  call_endpoint r st =
  match net st with
  | [] => (Normal JUndefined, st, [EvFetch r; EvError "Failed to fetch"])
  | f :: rest =>
      (Normal (fst (call_result (f r))), set_net rest st, EvFetch r :: snd (call_result (f r)))
  end.
Proof.
  unfold call_endpoint, try_catch, fetch, bind, emit, check_ok, response_json,
    console_error, throw, ret.
  destruct (net st) as [|f rest]; [reflexivity|].
  destruct (f r) as [m|status [b|]]; cbn; [reflexivity| |];
    destruct (http_ok status); reflexivity.
Qed.

Lemma call_endpoint_fails (r : request) (st : state) :
  next_fetch_fails st ->
  let '(res, st', evs) := call_endpoint r st in
  res = Normal JUndefined /\ currentSessinId st' = currentSessinId st /\
  chat_content st' = chat_content st /\ tool_container st' = tool_container st /\
  In (EvFetch r) evs /\ exists m, In (EvError m) evs.
Proof.
  unfold next_fetch_fails. intros H. rewrite call_endpoint_eq.
  destruct (net st) as [|f rest].
  - repeat split; simpl; eauto.
  - specialize (H r). unfold fetch_fails in H. unfold call_result.
    destruct (f r) as [m|status [b|]]; cbn.
    + repeat split; simpl; eauto.
    + destruct (http_ok status); [discriminate|]. repeat split; simpl; eauto.
    + destruct (http_ok status); repeat split; simpl; eauto.
Qed.

(** C10: each of callGetToolList, callCreateSession and callQuery, when the
    request fails in transport, gets a non-2xx status or a body that does
    not parse, catches the error, logs it with console.error and returns
    undefined rather than throwing. *)
Theorem calls_return_undefined_on_failure (st : state) :
  next_fetch_fails st ->
  (let '(res, _, evs) := callGetToolList st in
   res = Normal JUndefined /\ exists m, In (EvError m) evs) /\
  (forall selectedTools,
     let '(res, _, evs) := callCreateSession selectedTools st in
     res = Normal JUndefined /\ exists m, In (EvError m) evs) /\
  (forall query,
     let '(res, _, evs) := callQuery query st in
     res = Normal JUndefined /\ exists m, In (EvError m) evs).
Proof.
  intros H. split; [|split; intros].
  - unfold callGetToolList.
    pose proof (call_endpoint_fails (mkRequest getToolListEndpoint "GET" None) st H) as Hc.
    destruct (call_endpoint _ st) as [[res st'] evs]. tauto.
  - unfold callCreateSession, bind, gets. cbn.
    pose proof (call_endpoint_fails (mkRequest createSessionEndpoint "POST"
                   (Some (create_session_body (userId st) selectedTools))) st H) as Hc.
    destruct (call_endpoint _ st) as [[res st'] evs]. tauto.
  - unfold callQuery, bind, gets. cbn.
    pose proof (call_endpoint_fails (mkRequest queryEndpoint "POST"
                   (Some (query_body (userId st) query (currentSessinId st)))) st H) as Hc.
    destruct (call_endpoint _ st) as [[res st'] evs]. tauto.
Qed.

Ltac mstep :=
  unfold bind, ret, gets, modify, emit, alert, console_log, console_error,
    throw, type_error, on_click in *; cbn in *.

Lemma same_but_container_trans (s1 s2 s3 : state) :
  same_but_container s1 s2 -> same_but_container s2 s3 -> same_but_container s1 s3.
Proof. unfold same_but_container. intuition congruence. Qed.

Lemma same_but_container_refl (st : state) : same_but_container st st.
Proof. unfold same_but_container. tauto. Qed.

Lemma render_tool_frame (x : jsval) (st : state) :
  let '(_, st', evs) := render_tool x st in evs = [] /\ same_but_container st st'.
Proof.
  pose proof (same_but_container_refl st).
  unfold render_tool, get_prop; destruct x; mstep; auto.
Qed.

(** [forEach render_tool] emits nothing and touches only the container. *)
Lemma forEach_render_tool (xs : list jsval) (st : state) :
  let '(_, st', evs) := forEach render_tool xs st in
  evs = [] /\ same_but_container st st'.
Proof.
  revert st. induction xs as [|x xs IH]; intros st.
  - mstep. auto using same_but_container_refl.
  - unfold forEach; fold forEach. unfold bind.
    pose proof (render_tool_frame x st) as H1.
    destruct (render_tool x st) as [[[u|e] st1] w1].
    + specialize (IH st1). destruct (forEach render_tool xs st1) as [[r st2] w2].
      destruct H1 as [-> H1], IH as [-> IH]. eauto using same_but_container_trans.
    + exact H1.
Qed.

(** C7: with no checkbox checked, createSession logs the empty selection,
    alerts, issues no request and leaves the state (the session id
    included) unchanged. *)
Theorem createSession_empty_selection (st : state) :
  checked_values (tool_container st) = [] ->
  createSession st = (Normal tt, st, [EvLog (JArr []); EvAlert msg_no_tools]).
Proof.
  intros H. unfold createSession, getSelectedTools. mstep. rewrite H. reflexivity.
Qed.

(** C2 (amended): with the stored session id null (or undefined), sendQuery
    alerts and returns: no request is issued and the state is unchanged. *)
Theorem sendQuery_without_session (st : state) :
  js_loose_null (currentSessinId st) = true ->
  sendQuery st = (Normal tt, st, [EvAlert msg_no_session]).
Proof.
  intros H. unfold sendQuery. mstep. rewrite H. reflexivity.
Qed.

(** C2 counterexample: the stored id is null and a query is typed, yet a
    click on send issues no request at all. *)
Lemma sendQuery_null_session_sends_nothing :
  let '(_, _, evs) := handler OpClickSend page_no_session in
  currentSessinId page_no_session = JNull /\ query_input page_no_session = "hello" /\
  ~ (exists r, In (EvFetch r) evs /\
               req_body r = Some (query_body "default_user" "hello" JNull)).
Proof.
  vm_compute. split; [reflexivity|split; [reflexivity|]].
  intros [r [[H|[]] _]]. discriminate H.
Qed.

Lemma call_endpoint_non2xx (r : request) (st : state) (status : Z) :
  next_status st status -> http_ok status = false ->
  exists rest, net st <> [] /\
    call_endpoint r st = (Normal JUndefined, set_net rest st, [EvFetch r; http_error_event status]).
Proof.
  unfold next_status. intros Hn Hok. rewrite call_endpoint_eq.
  destruct (net st) as [|f rest]; [contradiction|].
  exists rest. split; [discriminate|].
  destruct (Hn r) as [b ->]. unfold call_result. rewrite Hok. reflexivity.
Qed.

(** C4: when the response is non-2xx, the catalog fetch, session creation
    and query each log the HTTP error whenever they issued the request, and
    leave the stored session id, the chat display and the checklist as they
    were. *)
Theorem non2xx_logged_state_unchanged (st : state) (status : Z) :
  next_status st status -> http_ok status = false ->
  (let '(_, st', evs) := initCheckbox st in
   In (http_error_event status) evs /\ keeps_page st st') /\
  (let '(_, st', evs) := createSession st in
   ((exists r, In (EvFetch r) evs) -> In (http_error_event status) evs) /\ keeps_page st st') /\
  (let '(_, st', evs) := sendQuery st in
   ((exists r, In (EvFetch r) evs) -> In (http_error_event status) evs) /\ keeps_page st st').
Proof.
  intros Hn Hok. unfold keeps_page. split; [|split].
  - unfold initCheckbox, callGetToolList. unfold bind at 1.
    destruct (call_endpoint_non2xx (mkRequest getToolListEndpoint "GET" None) st status Hn Hok)
      as [rest [_ ->]].
    mstep. auto 10.
  - unfold createSession, getSelectedTools, callCreateSession. mstep.
    destruct (Nat.eqb _ 0).
    + cbn. split; [intros [r H]; simpl in H; intuition discriminate|auto].
    + destruct (call_endpoint_non2xx
                  (mkRequest createSessionEndpoint "POST"
                     (Some (create_session_body (userId st)
                              (checked_values (tool_container st))))) st status Hn Hok)
        as [rest [_ ->]].
      mstep. auto 10.
  - unfold sendQuery, callQuery. mstep.
    destruct (js_loose_null (currentSessinId st)).
    + cbn. split; [intros [r H]; simpl in H; intuition discriminate|auto].
    + destruct (String.eqb (query_input st) "").
      * cbn. split; [intros [r H]; simpl in H; intuition discriminate|auto].
      * destruct (call_endpoint_non2xx
                    (mkRequest queryEndpoint "POST"
                       (Some (query_body (userId st) (query_input st) (currentSessinId st))))
                    st status Hn Hok) as [rest [_ ->]].
        mstep. auto 10.
Qed.

(** ** Shape of each handler *)

Lemma call_result_no_fetch (res : fetch_result) (r : request) :
  ~ In (EvFetch r) (snd (call_result res)).
Proof.
  unfold call_result. destruct res as [m|status [b|]]; simpl;
    try destruct (http_ok status); simpl; intuition discriminate.
Qed.

(** *** A frame logic for handler code *)
Section Frame.
Variable R : state -> state -> Prop.
Variable E : event -> Prop.
Hypothesis R_refl : forall st, R st st.
Hypothesis R_trans : forall s1 s2 s3, R s1 s2 -> R s2 s3 -> R s1 s3.

Lemma holds_ret {A} (a : A) : holds R E (ret a).
Proof. intros st. split; auto. Qed.

Lemma holds_throw {A} (e : exn) : holds R E (A := A) (throw e).
Proof. intros st. split; auto. Qed.

Lemma holds_gets {A} (f : state -> A) : holds R E (gets f).
Proof. intros st. split; auto. Qed.

Lemma holds_emit (e : event) : E e -> holds R E (emit e).
Proof. intros He st. split; auto. Qed.

Lemma holds_modify (f : state -> state) : (forall st, R st (f st)) -> holds R E (modify f).
Proof. intros Hf st. split; auto. Qed.

Lemma holds_bind {A B} (m : M A) (k : A -> M B) :
  holds R E m -> (forall a, holds R E (k a)) -> holds R E (bind m k).
Proof.
  intros Hm Hk st. specialize (Hm st). unfold bind.
  destruct (m st) as [[[a|e] st1] w1]; [|exact Hm].
  specialize (Hk a st1). destruct (k a st1) as [[r st2] w2].
  destruct Hm, Hk. split; eauto using Forall_app.
  apply Forall_app; auto.
Qed.

Lemma holds_try_catch {A} (m : M A) (h : exn -> M A) :
  holds R E m -> (forall e, holds R E (h e)) -> holds R E (try_catch m h).
Proof.
  intros Hm Hh st. specialize (Hm st). unfold try_catch.
  destruct (m st) as [[[a|e] st1] w1]; [exact Hm|].
  specialize (Hh e st1). destruct (h e st1) as [[r st2] w2].
  destruct Hm, Hh. split; eauto. apply Forall_app; auto.
Qed.

Lemma holds_get_prop (v : jsval) (k : string) : holds R E (get_prop v k).
Proof.
  unfold get_prop. destruct (read_prop v k);
    [apply holds_ret|apply holds_throw].
Qed.

Lemma holds_forEach (f : jsval -> M unit) (xs : list jsval) :
  (forall x, holds R E (f x)) -> holds R E (forEach f xs).
Proof.
  intros Hf. induction xs as [|x xs IH]; simpl.
  - apply holds_ret.
  - apply holds_bind; auto.
Qed.

Hypothesis R_pop : forall st f rest, net st = f :: rest -> R st (set_net rest st).

Lemma holds_fetch (r : request) : E (EvFetch r) -> holds R E (fetch r).
Proof.
  intros Hr. unfold fetch. apply holds_bind; [apply holds_emit; auto|].
  intros _ st. destruct (net st) as [|f rest] eqn:Hn; [split; auto|].
  destruct (f r); split; eauto.
Qed.

Lemma holds_call_endpoint (r : request) :
  E (EvFetch r) -> (forall m, E (EvError m)) -> holds R E (call_endpoint r).
Proof.
  intros Hr Herr. unfold call_endpoint.
  apply holds_try_catch.
  - apply holds_bind; [apply holds_fetch; auto|]. intros res.
    apply holds_bind.
    + unfold check_ok. destruct res as [m|status b];
        [apply holds_ret|destruct (negb (http_ok status)); [apply holds_throw|apply holds_ret]].
    + intros _. apply holds_bind; [|intros; apply holds_ret].
      unfold response_json. destruct res as [|? [|]]; [apply holds_throw|apply holds_ret|apply holds_throw].
  - intros e. apply holds_bind; [apply holds_emit; auto|intros; apply holds_ret].
Qed.
End Frame.

Lemma init_frame_refl (st : state) : init_frame st st.
Proof. unfold init_frame, net_suffix. repeat split; auto. exists []. reflexivity. Qed.

Lemma init_frame_trans (s1 s2 s3 : state) :
  init_frame s1 s2 -> init_frame s2 s3 -> init_frame s1 s3.
Proof.
  unfold init_frame, net_suffix.
  intros (H1&H2&H3&H4&H5&[p Hp]) (G1&G2&G3&G4&G5&[q Hq]).
  repeat split; try congruence. exists (p ++ q)%list. rewrite Hp, Hq, app_assoc. reflexivity.
Qed.

Lemma init_frame_pop (st : state) f rest :
  net st = f :: rest -> init_frame st (set_net rest st).
Proof.
  intros H. unfold init_frame, net_suffix. repeat split; auto.
  exists [f]. exact H.
Qed.

Lemma initCheckbox_shape :
  holds init_frame (fun e => forall r, e = EvFetch r -> r = tools_request) initCheckbox.
Proof.
  pose proof init_frame_refl as Hrefl. pose proof init_frame_trans as Htrans.
  pose proof init_frame_pop as Hpop.
  unfold initCheckbox. apply holds_bind; try assumption.
  - apply holds_call_endpoint; try assumption.
    + intros r H. inversion H. reflexivity.
    + intros m r H. discriminate.
  - intros toolList. apply holds_bind; try assumption; [apply holds_get_prop; assumption|].
    intros tools. destruct tools; try (apply holds_throw; assumption).
    apply holds_forEach; try assumption. intros x. unfold render_tool.
    apply holds_bind; try assumption; [apply holds_get_prop; assumption|]. intros name.
    apply holds_bind; try assumption; [apply holds_get_prop; assumption|]. intros d.
    apply holds_modify. intros st. unfold init_frame, net_suffix. simpl.
    repeat split; auto. exists []. reflexivity.
Qed.

Ltac splits := repeat match goal with |- _ /\ _ => split end.

Ltac solve_fetch_in :=
  let r := fresh "r" in let H := fresh "H" in
  intros r H; simpl in H;
  repeat match goal with Hd : _ \/ _ |- _ => destruct Hd as [Hd|Hd] end;
  try discriminate; try contradiction;
  try (inversion H; subst; try split; reflexivity).

(** createSession changes the session id only by the assignment after a
    2xx answer to its request, and issues no request but that one. *)
Lemma createSession_cases (st : state) :
  let '(_, st', evs) := createSession st in
  userId st' = userId st /\ chat_content st' = chat_content st /\
  query_input st' = query_input st /\ tool_container st' = tool_container st /\
  listeners_registered st' = listeners_registered st /\ net_suffix st st' /\
  (forall r, In (EvFetch r) evs ->
             r = create_request (userId st) (checked_values (tool_container st))) /\
  (currentSessinId st' = currentSessinId st \/
   exists f status b,
     net st = f :: net st' /\
     f (create_request (userId st) (checked_values (tool_container st))) = Resp status (Some b) /\
     http_ok status = true /\ read_prop b "session_id" = Some (currentSessinId st')).
Proof.
  unfold createSession, getSelectedTools, callCreateSession. mstep.
  destruct (Nat.eqb _ 0).
  - cbn. repeat split; auto; [exists []; reflexivity|solve_fetch_in].
  - rewrite call_endpoint_eq. unfold net_suffix.
    destruct (net st) as [|f rest] eqn:Hn.
    + cbn. repeat split; auto; [exists []; simpl; congruence|solve_fetch_in].
    + fold (create_request (userId st) (checked_values (tool_container st))).
      destruct (f (create_request _ _)) as [m|status [b|]] eqn:Hf;
        unfold call_result, get_prop;
        try destruct (http_ok status) eqn:Hok;
        cbn [fst snd];
        try (destruct (read_prop b "session_id") as [v|] eqn:Hr);
        mstep; repeat split; auto;
        try (exists [f]; reflexivity); try solve_fetch_in.
      right. exists f, status, b. auto.
Qed.

(** sendQuery never changes the session id, and its only request is the
    query for the stored id, user id and input, made when the stored id is
    neither null nor undefined and the input is not empty. *)
Lemma sendQuery_cases (st : state) :
  let '(_, st', evs) := sendQuery st in
  currentSessinId st' = currentSessinId st /\ userId st' = userId st /\
  query_input st' = query_input st /\ tool_container st' = tool_container st /\
  listeners_registered st' = listeners_registered st /\ net_suffix st st' /\
  (forall r, In (EvFetch r) evs ->
     js_loose_null (currentSessinId st) = false /\ query_input st <> "" /\
     r = query_request (userId st) (query_input st) (currentSessinId st)).
Proof.
  unfold sendQuery, callQuery.
  unfold bind, ret, gets, modify, emit, alert, console_log, console_error,
    throw, type_error.
  cbn -[js_loose_null String.eqb call_endpoint].
  destruct (js_loose_null (currentSessinId st)) eqn:Hs.
  { cbn. splits; auto; [exists []; reflexivity|solve_fetch_in]. }
  destruct (String.eqb (query_input st) "") eqn:Hq.
  { cbn. splits; auto; [exists []; reflexivity|solve_fetch_in]. }
  apply String.eqb_neq in Hq.
  rewrite call_endpoint_eq. unfold net_suffix.
  destruct (net st) as [|f rest] eqn:Hn.
  - cbn. splits; auto; [exists []; simpl; congruence|].
    solve_fetch_in; inversion H; subst; auto.
  - fold (query_request (userId st) (query_input st) (currentSessinId st)).
    pose proof (call_result_no_fetch (f (query_request (userId st) (query_input st)
                                                      (currentSessinId st)))) as Hno.
    destruct (call_result _) as [v w]. cbn [fst snd] in *.
    unfold get_prop. destruct (read_prop v "response");
      cbn; splits; auto; try (exists [f]; reflexivity);
      solve_fetch_in; try (inversion H; subst; auto; fail);
      rewrite ?app_nil_r in H; exfalso; eapply Hno; eauto.
Qed.

(** Every user action keeps the user id, uses up a prefix of the network,
    keeps the session id unless it is the create click, and sends a query
    only for the stored id, user id and input, with a stored id that is
    neither null nor undefined. *)
Lemma handler_shape (o : op) (st : state) :
  let '(_, st', evs) := handler o st in
  userId st' = userId st /\ net_suffix st st' /\
  (o <> OpClickCreate -> currentSessinId st' = currentSessinId st) /\
  (forall r, In (EvFetch r) evs -> req_endpoint r = queryEndpoint ->
     js_loose_null (currentSessinId st) = false /\ query_input st <> "" /\
     r = query_request (userId st) (query_input st) (currentSessinId st)).
Proof.
  destruct o as [| | |n|q]; unfold handler.
  - unfold onDOMContentLoaded, bind at 1.
    pose proof (initCheckbox_shape st) as H.
    destruct (initCheckbox st) as [[[u|e] st1] w1].
    + destruct H as [(H1&H2&H3&H4&H5&H6) HE]. mstep. rewrite app_nil_r.
      splits; auto. intros r Hr Hq. rewrite Forall_forall in HE.
      rewrite (HE _ Hr r eq_refl) in Hq. discriminate.
    + destruct H as [(H1&H2&H3&H4&H5&H6) HE]. splits; auto.
      intros r Hr Hq. rewrite Forall_forall in HE.
      rewrite (HE _ Hr r eq_refl) in Hq. discriminate.
  - unfold on_click. destruct (listeners_registered st).
    + pose proof (createSession_cases st) as H.
      destruct (createSession st) as [[res st'] evs].
      destruct H as (H1&H2&H3&H4&H5&H6&H7&H8). splits; auto.
      * intros C. congruence.
      * intros r Hr Hq. rewrite (H7 r Hr) in Hq. discriminate.
    + splits; auto. exists []. reflexivity. intros r [].
  - unfold on_click. destruct (listeners_registered st).
    + pose proof (sendQuery_cases st) as H.
      destruct (sendQuery st) as [[res st'] evs].
      destruct H as (H1&H2&H3&H4&H5&H6&H7). splits; auto.
    + splits; auto. exists []. reflexivity. intros r [].
  - mstep. splits; auto. exists []. reflexivity. intros r [].
  - mstep. splits; auto. exists []. reflexivity. intros r [].
Qed.

Lemma run_ops_userId (ops : list op) (st : state) :
  userId (fst (run_ops ops st)) = userId st.
Proof.
  revert st. induction ops as [|o ops IH]; intros st; [reflexivity|].
  simpl. pose proof (handler_shape o st) as H.
  destruct (handler o st) as [[res st1] w1].
  specialize (IH st1). destruct (run_ops ops st1) as [st2 w2].
  simpl in *. destruct H as [H _]. congruence.
Qed.

(** createSession after a 2xx creation answer. *)
Lemma createSession_ok_eq (st : state) (sel : list string)
    (f : request -> fetch_result) (rest : list (request -> fetch_result))
    (status : Z) (b v : jsval) :
  checked_values (tool_container st) = sel -> sel <> [] ->
  net st = f :: rest ->
  f (create_request (userId st) sel) = Resp status (Some b) ->
  http_ok status = true ->
  read_prop b "session_id" = Some v ->
  createSession st =
    (Normal tt, set_currentSessinId v (set_net rest st),
     [EvLog (JArr (map JStr sel)); EvFetch (create_request (userId st) sel)]).
Proof.
  intros Hsel Hne Hn Hf Hok Hv.
  unfold createSession, getSelectedTools, callCreateSession.
  unfold bind, ret, gets, modify, emit, alert, console_log.
  cbn -[checked_values call_endpoint]. rewrite Hsel.
  destruct sel as [|t0 sel']; [contradiction|]. cbn -[call_endpoint].
  rewrite call_endpoint_eq, Hn. fold (create_request (userId st) (t0 :: sel')).
  rewrite Hf. unfold call_result. rewrite Hok. cbn [fst snd].
  unfold get_prop. rewrite Hv. reflexivity.
Qed.

Lemma createSession_empty_eq (st : state) :
  checked_values (tool_container st) = [] ->
  createSession st = (Normal tt, st, [EvLog (JArr []); EvAlert msg_no_tools]).
Proof.
  intros H. unfold createSession, getSelectedTools. mstep. rewrite H. reflexivity.
Qed.

(** An action that is not a successful create keeps the stored id. *)
Lemma handler_keeps_session (o : op) (st : state) :
  ~ successful_create o st ->
  currentSessinId (snd (fst (handler o st))) = currentSessinId st.
Proof.
  intros Hns. destruct o as [| | |n|q];
    try (pose proof (handler_shape OpLoad st) as H; destruct (handler OpLoad st) as [[? ?] ?];
         destruct H as (_&_&H&_); apply H; discriminate);
    try (pose proof (handler_shape OpClickSend st) as H;
         destruct (handler OpClickSend st) as [[? ?] ?];
         destruct H as (_&_&H&_); apply H; discriminate);
    try reflexivity.
  simpl handler. unfold on_click.
  destruct (listeners_registered st) eqn:Hl; [|reflexivity].
  destruct (checked_values (tool_container st)) as [|x xs] eqn:Hc.
  - rewrite (createSession_empty_eq st Hc). reflexivity.
  - pose proof (createSession_cases st) as H.
    destruct (createSession st) as [[res st'] evs].
    destruct H as (_&_&_&_&_&_&_&[Heq|(f&status&b&Hn&Hf&Hok&Hr)]); [exact Heq|].
    exfalso. apply Hns. unfold successful_create. rewrite Hn, Hc.
    rewrite Hc in Hf. cbv beta iota.
    split; [reflexivity|split; [exact Hl|split; [discriminate|]]].
    exists status, b. split; [exact Hf|split; [exact Hok|]].
    rewrite Hr. discriminate.
Qed.

Lemma fst_run_ops_cons (o : op) (ops : list op) (st : state) :
  fst (run_ops (o :: ops) st) = fst (run_ops ops (snd (fst (handler o st)))).
Proof.
  simpl. destruct (handler o st) as [[r s1] w]. simpl.
  destruct (run_ops ops s1). reflexivity.
Qed.

(** Without a successful create along the way, the stored id survives any
    sequence of actions. *)
Lemma run_ops_keeps_session (ops : list op) (st : state) :
  (forall k o', nth_error ops k = Some o' ->
     ~ successful_create o' (fst (run_ops (firstn k ops) st))) ->
  currentSessinId (fst (run_ops ops st)) = currentSessinId st.
Proof.
  revert st. induction ops as [|o ops IH]; intros st H; [reflexivity|].
  rewrite fst_run_ops_cons, IH.
  - apply handler_keeps_session. exact (H 0 o eq_refl).
  - intros k o' Hk. specialize (H (S k) o' Hk).
    cbn [firstn] in H. rewrite fst_run_ops_cons in H. exact H.
Qed.

(** C1: with "search" the only checked tool, user id "default_user" and a
    2xx answer {session_id: "abc123"} to the creation request, a click on
    create stores "abc123". Afterwards, for any later actions, until a later
    create click succeeds (the stored id is overwritten), the stored id
    stays "abc123", and every query request carries session_id "abc123",
    user_id "default_user" and the submitted query text. *)
Theorem create_then_query_carries_session (st : state) (f : request -> fetch_result)
    (rest : list (request -> fetch_result)) (status : Z) :
  listeners_registered st = true ->
  checked_values (tool_container st) = ["search"] ->
  userId st = "default_user" ->
  net st = f :: rest ->
  f (create_request "default_user" ["search"]) =
    Resp status (Some (JObj [("session_id", JStr "abc123")])) ->
  http_ok status = true ->
  let '(_, st1, evs1) := handler OpClickCreate st in
  currentSessinId st1 = JStr "abc123" /\
  In (EvFetch (create_request "default_user" ["search"])) evs1 /\
  forall ops n o, nth_error ops n = Some o ->
    (forall k o', k < n -> nth_error ops k = Some o' ->
       ~ successful_create o' (fst (run_ops (firstn k ops) st1))) ->
    let stn := fst (run_ops (firstn n ops) st1) in
    currentSessinId stn = JStr "abc123" /\
    forall r, In (EvFetch r) (snd (handler o stn)) -> req_endpoint r = queryEndpoint ->
    r = query_request "default_user" (query_input stn) (JStr "abc123").
Proof.
  intros Hreg Hsel Huid Hnet Hf Hok.
  assert (Hh : handler OpClickCreate st = createSession st)
    by (simpl; unfold on_click; rewrite Hreg; reflexivity).
  rewrite Hh.
  unfold createSession, getSelectedTools, callCreateSession.
  unfold bind, ret, gets, modify, emit, alert, console_log, console_error,
    throw, type_error.
  cbn -[checked_values call_endpoint].
  rewrite Hsel. cbn -[call_endpoint]. rewrite Huid.
  rewrite call_endpoint_eq, Hnet.
  fold (create_request "default_user" ["search"]). rewrite Hf.
  unfold call_result. rewrite Hok. cbn.
  split; [reflexivity|split; [right; left; reflexivity|]].
  intros ops n o Hn Hno.
  set (stn := fst (run_ops (firstn n ops)
                           (set_currentSessinId (JStr "abc123") (set_net rest st)))).
  assert (Hs : currentSessinId stn = JStr "abc123").
  { unfold stn. rewrite run_ops_keeps_session; [reflexivity|].
    intros k o' Hk. rewrite nth_error_firstn in Hk.
    destruct (Nat.ltb k n) eqn:Hkn; [|discriminate]. apply Nat.ltb_lt in Hkn.
    rewrite firstn_firstn. replace (Nat.min k n) with k by lia.
    exact (Hno k o' Hkn Hk). }
  split; [exact Hs|]. intros r Hr Hq.
  pose proof (handler_shape o stn) as H.
  destruct (handler o stn) as [[res st'] evs]. cbn [snd] in Hr.
  destruct H as (_&_&_&H). destruct (H r Hr Hq) as (_&_&->).
  rewrite Hs. unfold stn. rewrite run_ops_userId. simpl. rewrite Huid. reflexivity.
Qed.

(** C3: the client sends a query only while it holds a session id that is
    neither null nor undefined, and the request carries that id; with the
    stored id null, sendQuery issues no request at all. *)
Theorem query_sent_only_with_session :
  (forall o st r, In (EvFetch r) (snd (handler o st)) -> req_endpoint r = queryEndpoint ->
     js_loose_null (currentSessinId st) = false /\
     req_body r = Some (query_body (userId st) (query_input st) (currentSessinId st))) /\
  (forall st r, js_loose_null (currentSessinId st) = true ->
     ~ In (EvFetch r) (snd (sendQuery st))).
Proof.
  split.
  - intros o st r Hr Hq. pose proof (handler_shape o st) as H.
    destruct (handler o st) as [[res st'] evs]. cbn [snd] in Hr.
    destruct H as (_&_&_&H). destruct (H r Hr Hq) as (Hs&_&->). auto.
  - intros st r Hs. pose proof (sendQuery_cases st) as H.
    destruct (sendQuery st) as [[res st'] evs]. cbn [snd].
    intros Hr. destruct H as (_&_&_&_&_&_&H). destruct (H r Hr) as [Hs' _].
    congruence.
Qed.

(** C9 counterexample: the stored id is "abc123"; a session creation
    answered 200 with a body lacking session_id stores undefined, which
    sendQuery treats as no session. *)
Lemma session_returns_to_null :
  let st' := fst (run_ops [OpClickCreate] page_with_session) in
  js_loose_null (currentSessinId page_with_session) = false /\
  currentSessinId st' = JUndefined /\ js_loose_null (currentSessinId st') = true /\
  snd (sendQuery st') = [EvAlert msg_no_session].
Proof. vm_compute. repeat split; reflexivity. Qed.

(** C9 (amended): as long as the server honours the /sessions/create
    contract, a stored session id that is neither null nor undefined stays
    so through any sequence of user actions; actions other than the create
    click never change the stored id, and the create click changes it only
    to the session_id read from a 2xx answer to its request. A 2xx answer
    outside the contract, whose body (JSON, not null) has no session_id or
    has session_id null, stores undefined (or null), and sendQuery then
    treats the page as having no session: it alerts and sends nothing. *)
Theorem session_persists_under_contract :
  (forall ops st,
     Forall honours_create_contract (net st) ->
     js_loose_null (currentSessinId st) = false ->
     js_loose_null (currentSessinId (fst (run_ops ops st))) = false) /\
  (forall o st, o <> OpClickCreate ->
     currentSessinId (snd (fst (handler o st))) = currentSessinId st) /\
  (forall st,
     let st' := snd (fst (createSession st)) in
     currentSessinId st' = currentSessinId st \/
     exists f status b,
       net st = f :: net st' /\
       f (create_request (userId st) (checked_values (tool_container st))) =
         Resp status (Some b) /\
       http_ok status = true /\ read_prop b "session_id" = Some (currentSessinId st')) /\
  (forall st sel f rest status b v,
     checked_values (tool_container st) = sel -> sel <> [] ->
     net st = f :: rest ->
     f (create_request (userId st) sel) = Resp status (Some b) ->
     http_ok status = true ->
     read_prop b "session_id" = Some v -> js_loose_null v = true ->
     let st' := snd (fst (createSession st)) in
     currentSessinId st' = v /\ sendQuery st' = (Normal tt, st', [EvAlert msg_no_session])).
Proof.
  split; [|split; [|split]].
  - intros ops. induction ops as [|o ops IH]; intros st Hc Hs; [exact Hs|].
    simpl. pose proof (handler_shape o st) as H.
    destruct (handler o st) as [[res st1] w1] eqn:Eh.
    destruct H as (_&[pre Hpre]&Hkeep&_).
    specialize (IH st1).
    destruct (run_ops ops st1) as [st2 w2]. simpl in *. apply IH.
    + rewrite Hpre in Hc. apply Forall_app in Hc. tauto.
    + destruct o; try (rewrite Hkeep; [exact Hs|discriminate]).
      simpl in Eh. unfold on_click in Eh.
      destruct (listeners_registered st); [|inversion Eh; subst; exact Hs].
      pose proof (createSession_cases st) as Hc'. rewrite Eh in Hc'.
      destruct Hc' as (_&_&_&_&_&_&_&[->|(f&status&b&Hn&Hf&Hok&Hr)]); [exact Hs|].
      rewrite Hn in Hc. inversion Hc as [|? ? Hf' _]; subst.
      specialize (Hf' (create_request (userId st) (checked_values (tool_container st))) eq_refl).
      rewrite Hf in Hf'. simpl in Hf'.
      rewrite Hok, Hr in Hf'. destruct (js_loose_null (currentSessinId st1)); auto.
  - intros o st Ho. pose proof (handler_shape o st) as H.
    destruct (handler o st) as [[res st1] w1]. destruct H as (_&_&H&_). auto.
  - intros st. pose proof (createSession_cases st) as H.
    destruct (createSession st) as [[res st1] w1]. simpl. tauto.
  - intros st sel f rest status b v Hsel Hne Hn Hf Hok Hv Hnull.
    rewrite (createSession_ok_eq st sel f rest status b v Hsel Hne Hn Hf Hok Hv).
    cbn [fst snd]. split; [reflexivity|].
    unfold sendQuery, bind, gets, alert, emit.
    cbn -[js_loose_null]. rewrite Hnull. reflexivity.
Qed.

Lemma set_tool_container_twice (c1 c2 : list tool_item) (st : state) :
  set_tool_container c2 (set_tool_container c1 st) = set_tool_container c2 st.
Proof. destruct st. reflexivity. Qed.

Lemma forEach_render_catalog (ts : list tool) (st : state) :
  forEach render_tool (map tool_json ts) st =
  (Normal tt, set_tool_container ((tool_container st ++ map checklist_entry ts)%list) st, []).
Proof.
  revert st. induction ts as [|t ts IH]; intros st.
  - simpl. rewrite app_nil_r. destruct st. reflexivity.
  - simpl map. unfold forEach; fold forEach. unfold bind at 1.
    assert (Hr : render_tool (tool_json t) st =
                 (Normal tt, set_tool_container ((tool_container st ++ [checklist_entry t])%list) st, []))
      by reflexivity.
    rewrite Hr, IH, set_tool_container_twice. cbn. rewrite <- app_assoc. reflexivity.
Qed.

(** C6: when the catalog fetch answers 2xx with N tools, initCheckbox
    appends exactly N entries to the container, in the catalog's order, the
    i-th with checkbox id and value, label for and label text equal to the
    i-th tool's name and description text equal to its description. *)
Theorem initCheckbox_renders_catalog (st : state) (ts : list tool)
    (f : request -> fetch_result) (rest : list (request -> fetch_result)) (status : Z) :
  net st = f :: rest ->
  f tools_request = Resp status (Some (catalog_json ts)) ->
  http_ok status = true ->
  let '(res, st', _) := initCheckbox st in
  res = Normal tt /\
  tool_container st' = (tool_container st ++ map checklist_entry ts)%list /\
  length (map checklist_entry ts) = length ts /\
  (forall i t, nth_error ts i = Some t ->
     exists it, nth_error (skipn (length (tool_container st)) (tool_container st')) i = Some it /\
     cb_id (item_checkbox it) = tool_name t /\ cb_value (item_checkbox it) = tool_name t /\
     item_label_for it = tool_name t /\ item_label_text it = tool_name t /\
     item_desc_text it = tool_description t).
Proof.
  intros Hn Hf Hok.
  unfold initCheckbox, callGetToolList, bind at 1.
  rewrite call_endpoint_eq, Hn. fold tools_request. rewrite Hf.
  unfold call_result. rewrite Hok. cbn [fst snd].
  unfold bind, get_prop. cbn -[forEach map].
  rewrite forEach_render_catalog. cbn.
  split; [reflexivity|split; [reflexivity|split; [apply length_map|]]].
  intros i t Hi. rewrite skipn_app, skipn_all, Nat.sub_diag. simpl.
  exists (checklist_entry t). rewrite nth_error_map, Hi. simpl. auto 10.
Qed.

(** C8: a 2xx answer {response: r} to the query sets the chat display's
    text to exactly r, whatever it showed before. *)
Theorem sendQuery_replaces_chat (st : state) (f : request -> fetch_result)
    (rest : list (request -> fetch_result)) (status : Z)
    (fields : list (string * jsval)) (r : string) :
  js_loose_null (currentSessinId st) = false ->
  query_input st <> "" ->
  net st = f :: rest ->
  f (query_request (userId st) (query_input st) (currentSessinId st)) =
    Resp status (Some (JObj fields)) ->
  assoc "response" fields = Some (JStr r) ->
  http_ok status = true ->
  let '(res, st', _) := sendQuery st in res = Normal tt /\ chat_content st' = r.
Proof.
  intros Hs Hq Hn Hf Hr Hok.
  unfold sendQuery, callQuery.
  unfold bind, ret, gets, modify, emit, alert, console_log, console_error,
    throw, type_error.
  cbn -[js_loose_null String.eqb call_endpoint].
  rewrite Hs. apply String.eqb_neq in Hq. rewrite Hq.
  rewrite call_endpoint_eq, Hn.
  fold (query_request (userId st) (query_input st) (currentSessinId st)). rewrite Hf.
  unfold call_result. rewrite Hok. cbn [fst snd].
  unfold get_prop, read_prop. rewrite Hr. cbn. split; reflexivity.
Qed.

(** C5 at a failing input: a 500 answer to the creation request is logged
    and absorbed by callCreateSession, which returns undefined; createSession
    then reads [undefined.session_id] and the TypeError escapes the click
    handler. A 500 answer to the catalog request likewise makes initCheckbox
    throw, so the DOMContentLoaded listener stops before attaching the button
    listeners, and a later click on create does nothing at all. *)
Lemma failures_escape_handlers :
  fst (fst (handler OpClickCreate page_create_500)) =
    Thrown (mkExn "TypeError" "Cannot read properties of undefined (reading 'session_id')") /\
  In (http_error_event 500) (snd (handler OpClickCreate page_create_500)) /\
  let st0 := initial_state "hello" [respond 500 (JObj [])] in
  fst (fst (handler OpLoad st0)) =
    Thrown (mkExn "TypeError" "Cannot read properties of undefined (reading 'tools')") /\
  listeners_registered (snd (fst (handler OpLoad st0))) = false /\
  handler OpClickCreate (snd (fst (handler OpLoad st0))) =
    (Normal tt, snd (fst (handler OpLoad st0)), []).
Proof. vm_compute. repeat split; auto 6. Qed.

(** ** Witnesses: each theorem applied at a concrete page *)

Lemma create_then_query_carries_session_witness :
  listeners_registered page_before_create = true /\
  checked_values (tool_container page_before_create) = ["search"] /\
  userId page_before_create = "default_user" /\
  net page_before_create = abc123_answer :: [] /\
  abc123_answer (create_request "default_user" ["search"]) =
    Resp 200 (Some (JObj [("session_id", JStr "abc123")])) /\
  http_ok 200 = true /\
  let '(_, st1, evs1) := handler OpClickCreate page_before_create in
  currentSessinId st1 = JStr "abc123" /\
  In (EvFetch (create_request "default_user" ["search"])) evs1 /\
  forall ops n o, nth_error ops n = Some o ->
    (forall k o', k < n -> nth_error ops k = Some o' ->
       ~ successful_create o' (fst (run_ops (firstn k ops) st1))) ->
    let stn := fst (run_ops (firstn n ops) st1) in
    currentSessinId stn = JStr "abc123" /\
    forall r, In (EvFetch r) (snd (handler o stn)) -> req_endpoint r = queryEndpoint ->
    r = query_request "default_user" (query_input stn) (JStr "abc123").
Proof.
  repeat (split; [reflexivity|]).
  apply (create_then_query_carries_session page_before_create abc123_answer [] 200);
    reflexivity.
Defined.

Lemma sendQuery_without_session_witness :
  js_loose_null (currentSessinId page_no_session) = true /\
  sendQuery page_no_session = (Normal tt, page_no_session, [EvAlert msg_no_session]).
Proof.
  split; [reflexivity|]. apply sendQuery_without_session. reflexivity.
Defined.

Lemma query_sent_only_with_session_witness :
  In (EvFetch (query_request "default_user" "hello" (JStr "abc123")))
     (snd (handler OpClickSend page_query)) /\
  js_loose_null (currentSessinId page_query) = false /\
  req_body (query_request "default_user" "hello" (JStr "abc123")) =
    Some (query_body (userId page_query) (query_input page_query) (currentSessinId page_query)).
Proof.
  assert (H : In (EvFetch (query_request "default_user" "hello" (JStr "abc123")))
                 (snd (handler OpClickSend page_query)))
    by (vm_compute; auto 6).
  split; [exact H|].
  apply (proj1 query_sent_only_with_session OpClickSend page_query _ H). reflexivity.
Defined.

Lemma non2xx_logged_state_unchanged_witness :
  next_status page_create_500 500 /\ http_ok 500 = false /\
  (let '(_, st', evs) := initCheckbox page_create_500 in
   In (http_error_event 500) evs /\ keeps_page page_create_500 st') /\
  (let '(_, st', evs) := createSession page_create_500 in
   ((exists r, In (EvFetch r) evs) -> In (http_error_event 500) evs) /\
   keeps_page page_create_500 st') /\
  (let '(_, st', evs) := sendQuery page_create_500 in
   ((exists r, In (EvFetch r) evs) -> In (http_error_event 500) evs) /\
   keeps_page page_create_500 st').
Proof.
  assert (Hn : next_status page_create_500 500) by (intros r; eexists; reflexivity).
  split; [exact Hn|split; [reflexivity|]].
  apply (non2xx_logged_state_unchanged page_create_500 500 Hn). reflexivity.
Defined.

Lemma calls_return_undefined_on_failure_witness :
  next_fetch_fails page_create_500 /\
  (let '(res, _, evs) := callGetToolList page_create_500 in
   res = Normal JUndefined /\ exists m, In (EvError m) evs) /\
  (forall selectedTools,
     let '(res, _, evs) := callCreateSession selectedTools page_create_500 in
     res = Normal JUndefined /\ exists m, In (EvError m) evs) /\
  (forall query,
     let '(res, _, evs) := callQuery query page_create_500 in
     res = Normal JUndefined /\ exists m, In (EvError m) evs).
Proof.
  assert (H : next_fetch_fails page_create_500) by (intros r; reflexivity).
  split; [exact H|]. apply (calls_return_undefined_on_failure page_create_500 H).
Defined.

Lemma createSession_empty_selection_witness :
  checked_values (tool_container page_no_session) = [] /\
  createSession page_no_session =
    (Normal tt, page_no_session, [EvLog (JArr []); EvAlert msg_no_tools]).
Proof.
  split; [reflexivity|]. apply createSession_empty_selection. reflexivity.
Defined.

Lemma initCheckbox_renders_catalog_witness :
  let st := initial_state "" [catalog_answer] in
  net st = catalog_answer :: [] /\
  catalog_answer tools_request = Resp 200 (Some (catalog_json [search_tool])) /\
  http_ok 200 = true /\
  let '(res, st', _) := initCheckbox st in
  res = Normal tt /\
  tool_container st' = (tool_container st ++ map checklist_entry [search_tool])%list /\
  length (map checklist_entry [search_tool]) = length [search_tool] /\
  (forall i t, nth_error [search_tool] i = Some t ->
     exists it, nth_error (skipn (length (tool_container st)) (tool_container st')) i = Some it /\
     cb_id (item_checkbox it) = tool_name t /\ cb_value (item_checkbox it) = tool_name t /\
     item_label_for it = tool_name t /\ item_label_text it = tool_name t /\
     item_desc_text it = tool_description t).
Proof.
  split; [reflexivity|split; [reflexivity|split; [reflexivity|]]].
  apply (initCheckbox_renders_catalog (initial_state "" [catalog_answer]) [search_tool]
           catalog_answer [] 200); reflexivity.
Defined.

Lemma sendQuery_replaces_chat_witness :
  js_loose_null (currentSessinId page_query) = false /\
  query_input page_query <> "" /\
  net page_query = hello_answer :: [] /\
  hello_answer (query_request (userId page_query) (query_input page_query)
                              (currentSessinId page_query)) =
    Resp 200 (Some (JObj [("response", JStr "hello back")])) /\
  assoc "response" [("response", JStr "hello back")] = Some (JStr "hello back") /\
  http_ok 200 = true /\
  let '(res, st', _) := sendQuery page_query in
  res = Normal tt /\ chat_content st' = "hello back".
Proof.
  assert (Hq : query_input page_query <> "") by discriminate.
  split; [reflexivity|split; [exact Hq|]].
  repeat (split; [reflexivity|]).
  apply (sendQuery_replaces_chat page_query hello_answer [] 200
           [("response", JStr "hello back")] "hello back"); try reflexivity.
  exact Hq.
Defined.

Lemma session_persists_under_contract_witness :
  Forall honours_create_contract (net page_before_create) /\
  js_loose_null (currentSessinId (set_currentSessinId (JStr "old") page_before_create)) = false /\
  js_loose_null (currentSessinId
                   (fst (run_ops [OpClickCreate; OpClickSend]
                                 (set_currentSessinId (JStr "old") page_before_create)))) = false /\
  (checked_values (tool_container page_with_session) = ["search"] /\ ["search"] <> [] /\
   net page_with_session = empty_answer :: [] /\
   empty_answer (create_request (userId page_with_session) ["search"]) =
     Resp 200 (Some (JObj [])) /\
   http_ok 200 = true /\
   read_prop (JObj []) "session_id" = Some JUndefined /\ js_loose_null JUndefined = true /\
   let st' := snd (fst (createSession page_with_session)) in
   currentSessinId st' = JUndefined /\
   sendQuery st' = (Normal tt, st', [EvAlert msg_no_session])).
Proof.
  assert (Hc : Forall honours_create_contract (net page_before_create))
    by (constructor; [intros r _; reflexivity|constructor]).
  assert (Hne : ["search"] <> []) by discriminate.
  split; [exact Hc|split; [reflexivity|split]].
  - apply (proj1 session_persists_under_contract); [exact Hc|reflexivity].
  - split; [reflexivity|split; [exact Hne|]].
    do 5 (split; [reflexivity|]).
    exact (proj2 (proj2 (proj2 session_persists_under_contract)) page_with_session
             ["search"] empty_answer [] 200%Z (JObj []) JUndefined
             eq_refl Hne eq_refl eq_refl eq_refl eq_refl eq_refl).
Defined.

(** ** Further properties of the client *)

Lemma set_net_same (st : state) : set_net (net st) st = st.
Proof. destruct st. reflexivity. Qed.

(** A failed call answers undefined, having used up at most one responder. *)
Lemma call_endpoint_failed (r : request) (st : state) :
  next_fetch_fails st ->
  exists n w, call_endpoint r st = (Normal JUndefined, set_net n st, w).
Proof.
  unfold next_fetch_fails. intros H. rewrite call_endpoint_eq.
  destruct (net st) as [|f rest] eqn:Hn.
  - exists [], [EvFetch r; EvError "Failed to fetch"].
    rewrite <- Hn, set_net_same. reflexivity.
  - specialize (H r). exists rest, (EvFetch r :: snd (call_result (f r))).
    unfold call_result, fetch_fails in *.
    destruct (f r) as [m|status [b|]]; cbn; [reflexivity| |];
      destruct (http_ok status); try discriminate; reflexivity.
Qed.


(** X1: with a non-empty selection and a 2xx answer whose body has a
    readable session_id [v] (undefined when the key is missing),
    createSession logs the selection, sends exactly one request, POST
    /sessions/create with the user id and the checked values in document
    order, and stores [v], replacing whatever id was held before. *)
Theorem createSession_stores_answer (st : state) (sel : list string)
    (f : request -> fetch_result) (rest : list (request -> fetch_result))
    (status : Z) (b v : jsval) :
  checked_values (tool_container st) = sel -> sel <> [] ->
  net st = f :: rest ->
  f (create_request (userId st) sel) = Resp status (Some b) ->
  http_ok status = true ->
  read_prop b "session_id" = Some v ->
  createSession st =
    (Normal tt, set_currentSessinId v (set_net rest st),
     [EvLog (JArr (map JStr sel)); EvFetch (create_request (userId st) sel)]).
Proof. exact (createSession_ok_eq st sel f rest status b v). Qed.

(** X2: with a non-empty selection and a failing creation call (transport
    failure, non-2xx status or a body that is not JSON), createSession
    throws a TypeError reading session_id of undefined, and the stored
    session id is unchanged. *)
Theorem createSession_failed_call_throws (st : state) :
  checked_values (tool_container st) <> [] ->
  next_fetch_fails st ->
  fst (fst (createSession st)) =
    Thrown (mkExn "TypeError" "Cannot read properties of undefined (reading 'session_id')") /\
  currentSessinId (snd (fst (createSession st))) = currentSessinId st.
Proof.
  intros Hne Hfail.
  unfold createSession, getSelectedTools, callCreateSession.
  unfold bind, ret, gets, modify, emit, alert, console_log.
  cbn -[checked_values call_endpoint].
  destruct (checked_values (tool_container st)) as [|t0 sel'] eqn:Hs; [contradiction|].
  cbn -[call_endpoint].
  destruct (call_endpoint_failed
              (create_request (userId st) (t0 :: sel')) st Hfail) as (n & w & Hc).
  unfold create_request in Hc. rewrite Hc. cbn. split; reflexivity.
Qed.

(** X3: with a session held but an empty query input, sendQuery alerts
    that nothing was entered and returns: no request, state unchanged. *)
Theorem sendQuery_empty_input (st : state) :
  js_loose_null (currentSessinId st) = false ->
  query_input st = "" ->
  sendQuery st = (Normal tt, st, [EvAlert msg_empty_query]).
Proof.
  intros Hs Hq. unfold sendQuery.
  unfold bind, ret, gets, emit, alert.
  cbn -[js_loose_null String.eqb call_endpoint].
  rewrite Hs, Hq. reflexivity.
Qed.

(** X4: with a session held and a non-empty input, a failing query call
    makes sendQuery throw a TypeError reading response of undefined; the
    chat display and the stored session id are unchanged. *)
Theorem sendQuery_failed_call_throws (st : state) :
  js_loose_null (currentSessinId st) = false ->
  query_input st <> "" ->
  next_fetch_fails st ->
  fst (fst (sendQuery st)) =
    Thrown (mkExn "TypeError" "Cannot read properties of undefined (reading 'response')") /\
  chat_content (snd (fst (sendQuery st))) = chat_content st /\
  currentSessinId (snd (fst (sendQuery st))) = currentSessinId st.
Proof.
  intros Hs Hq Hfail. apply String.eqb_neq in Hq.
  unfold sendQuery, callQuery.
  unfold bind, ret, gets, modify, emit, alert, console_log.
  cbn -[js_loose_null String.eqb call_endpoint].
  rewrite Hs, Hq.
  destruct (call_endpoint_failed
              (query_request (userId st) (query_input st) (currentSessinId st)) st Hfail)
    as (n & w & Hc).
  unfold query_request in Hc. rewrite Hc. cbn. repeat split; reflexivity.
Qed.

(** X5: a 2xx answer to the query whose body object has no response key
    clears the chat display: [textContent = undefined] gives "". *)
Theorem sendQuery_missing_response_clears (st : state) (f : request -> fetch_result)
    (rest : list (request -> fetch_result)) (status : Z) (fields : list (string * jsval)) :
  js_loose_null (currentSessinId st) = false ->
  query_input st <> "" ->
  net st = f :: rest ->
  f (query_request (userId st) (query_input st) (currentSessinId st)) =
    Resp status (Some (JObj fields)) ->
  assoc "response" fields = None ->
  http_ok status = true ->
  let '(res, st', _) := sendQuery st in res = Normal tt /\ chat_content st' = "".
Proof.
  intros Hs Hq Hn Hf Hr Hok. apply String.eqb_neq in Hq.
  unfold sendQuery, callQuery.
  unfold bind, ret, gets, modify, emit, alert, console_log.
  cbn -[js_loose_null String.eqb call_endpoint].
  rewrite Hs, Hq, call_endpoint_eq, Hn.
  fold (query_request (userId st) (query_input st) (currentSessinId st)). rewrite Hf.
  unfold call_result. rewrite Hok. cbn [fst snd].
  unfold get_prop, read_prop. rewrite Hr. cbn. split; reflexivity.
Qed.

(** X6: a 2xx catalog answer without a [tools] array (the key missing,
    another kind of value, or a null body) makes initCheckbox throw a
    TypeError and appends nothing. *)
Theorem initCheckbox_without_tools_array (st : state) (f : request -> fetch_result)
    (rest : list (request -> fetch_result)) (status : Z) (b : jsval) :
  net st = f :: rest ->
  f tools_request = Resp status (Some b) ->
  http_ok status = true ->
  match read_prop b "tools" with Some (JArr _) => False | _ => True end ->
  let '(res, st', _) := initCheckbox st in
  (exists m, res = Thrown (mkExn "TypeError" m)) /\ tool_container st' = tool_container st.
Proof.
  intros Hn Hf Hok Hb.
  unfold initCheckbox, callGetToolList, bind at 1.
  rewrite call_endpoint_eq, Hn. fold tools_request. rewrite Hf.
  unfold call_result. rewrite Hok. cbn [fst snd].
  unfold bind, get_prop.
  destruct (read_prop b "tools") as [[| | | | |xs|]|]; try contradiction;
    cbn; split; eauto.
Qed.

Lemma forEach_render_stops_at_null (xs : list tool) (ys : list jsval) (st : state) :
  forEach render_tool (map tool_json xs ++ JNull :: ys) st =
  (Thrown (mkExn "TypeError" "Cannot read properties of null (reading 'name')"),
   set_tool_container ((tool_container st ++ map checklist_entry xs)%list) st, []).
Proof.
  revert st. induction xs as [|t xs IH]; intros st.
  - simpl. rewrite app_nil_r. destruct st. reflexivity.
  - simpl map. rewrite <- app_comm_cons. unfold forEach; fold forEach. unfold bind at 1.
    assert (Hr : render_tool (tool_json t) st =
                 (Normal tt, set_tool_container ((tool_container st ++ [checklist_entry t])%list) st, []))
      by reflexivity.
    rewrite Hr, IH, set_tool_container_twice. cbn. rewrite <- app_assoc. reflexivity.
Qed.

(** X7: rendering is not atomic: when the catalog holds a null entry after
    the well-formed tools [xs], the entries for [xs] are appended, then
    initCheckbox throws a TypeError on the null entry and the rest is not
    rendered. *)
Theorem initCheckbox_partial_render (st : state) (f : request -> fetch_result)
    (rest : list (request -> fetch_result)) (status : Z) (xs : list tool) (ys : list jsval) :
  net st = f :: rest ->
  f tools_request = Resp status (Some (JObj [("tools", JArr (map tool_json xs ++ JNull :: ys))])) ->
  http_ok status = true ->
  let '(res, st', _) := initCheckbox st in
  res = Thrown (mkExn "TypeError" "Cannot read properties of null (reading 'name')") /\
  tool_container st' = (tool_container st ++ map checklist_entry xs)%list.
Proof.
  intros Hn Hf Hok.
  unfold initCheckbox, callGetToolList, bind at 1.
  rewrite call_endpoint_eq, Hn. fold tools_request. rewrite Hf.
  unfold call_result. rewrite Hok. cbn [fst snd].
  unfold bind, get_prop. cbn -[forEach map app].
  rewrite forEach_render_stops_at_null. cbn. split; reflexivity.
Qed.

(** Without listeners a click does nothing; no action but the load issues
    a request, an alert or touches the session id or the chat. *)
Lemma run_ops_unregistered (ops : list op) (st : state) :
  listeners_registered st = false -> ~ In OpLoad ops ->
  snd (run_ops ops st) = [] /\
  currentSessinId (fst (run_ops ops st)) = currentSessinId st /\
  chat_content (fst (run_ops ops st)) = chat_content st /\
  listeners_registered (fst (run_ops ops st)) = false.
Proof.
  revert st. induction ops as [|o ops IH]; intros st Hl Hin; [simpl; auto|].
  assert (Ho : o <> OpLoad) by (intros ->; apply Hin; left; reflexivity).
  assert (Hin' : ~ In OpLoad ops) by (intros H; apply Hin; right; exact H).
  destruct o as [| | |n|q]; [contradiction| | | |]; simpl;
    unfold on_click, modify; rewrite ?Hl;
    match goal with
    | |- context [run_ops ops ?s] =>
        specialize (IH s); destruct (run_ops ops s) as [st2 w2]; simpl in *;
        destruct IH as (-> & -> & -> & ->); auto
    end.
Qed.

(** X8: when the catalog request fails at page load, initCheckbox throws,
    the DOMContentLoaded listener stops before attaching the button
    listeners, and afterwards no sequence of clicks and edits sends a
    request, raises an alert, or changes the session id or the chat. *)
Theorem failed_load_leaves_page_dead (st : state) :
  listeners_registered st = false ->
  next_fetch_fails st ->
  let st1 := snd (fst (handler OpLoad st)) in
  (exists e, fst (fst (handler OpLoad st)) = Thrown e) /\
  listeners_registered st1 = false /\
  forall ops, ~ In OpLoad ops ->
    snd (run_ops ops st1) = [] /\
    currentSessinId (fst (run_ops ops st1)) = currentSessinId st1 /\
    chat_content (fst (run_ops ops st1)) = chat_content st1.
Proof.
  intros Hl Hfail.
  assert (H : exists e, fst (fst (handler OpLoad st)) = Thrown e /\
                        listeners_registered (snd (fst (handler OpLoad st))) = false).
  { simpl. unfold onDOMContentLoaded, initCheckbox, callGetToolList, bind.
    destruct (call_endpoint_failed (mkRequest getToolListEndpoint "GET" None) st Hfail)
      as (n & w & ->).
    cbn. eauto. }
  destruct H as [e [He Hl1]]. split; [eauto|split; [exact Hl1|]].
  intros ops Hin. destruct (run_ops_unregistered ops _ Hl1 Hin) as (A & B & C & _). auto.
Qed.

Lemma initCheckbox_catalog_eq (st : state) (ts : list tool) (f : request -> fetch_result)
    (rest : list (request -> fetch_result)) (status : Z) :
  net st = f :: rest ->
  f tools_request = Resp status (Some (catalog_json ts)) ->
  http_ok status = true ->
  initCheckbox st =
    (Normal tt, set_tool_container ((tool_container st ++ map checklist_entry ts)%list)
                                   (set_net rest st), [EvFetch tools_request]).
Proof.
  intros Hn Hf Hok.
  unfold initCheckbox, callGetToolList, bind at 1.
  rewrite call_endpoint_eq, Hn. fold tools_request. rewrite Hf.
  unfold call_result. rewrite Hok. cbn [fst snd].
  unfold bind, get_prop. cbn -[forEach map].
  rewrite forEach_render_catalog. reflexivity.
Qed.

Lemma sendQuery_ok_eq (st : state) (f : request -> fetch_result)
    (rest : list (request -> fetch_result)) (status : Z) (b rv : jsval) :
  js_loose_null (currentSessinId st) = false ->
  query_input st <> "" ->
  net st = f :: rest ->
  f (query_request (userId st) (query_input st) (currentSessinId st)) = Resp status (Some b) ->
  http_ok status = true ->
  read_prop b "response" = Some rv ->
  sendQuery st =
    (Normal tt, set_chat_content (nullable_dom_string rv) (set_net rest st),
     [EvLog (JStr ("現在のセッション: " ++ js_to_string (currentSessinId st)));
      EvLog (JStr ("入力されたクエリ: " ++ query_input st));
      EvFetch (query_request (userId st) (query_input st) (currentSessinId st))]).
Proof.
  intros Hs Hq Hn Hf Hok Hr. apply String.eqb_neq in Hq.
  unfold sendQuery, callQuery.
  unfold bind, ret, gets, modify, emit, alert, console_log.
  cbn -[js_loose_null String.eqb call_endpoint].
  rewrite Hs, Hq, call_endpoint_eq, Hn.
  fold (query_request (userId st) (query_input st) (currentSessinId st)). rewrite Hf.
  unfold call_result. rewrite Hok. cbn [fst snd].
  unfold get_prop. rewrite Hr. reflexivity.
Qed.

Lemma filter_checked_fresh (ts : list tool) :
  filter (fun it => cb_checked (item_checkbox it)) (map checklist_entry ts) = [].
Proof. induction ts; simpl; auto. Qed.

Lemma checked_values_fresh (ts : list tool) :
  checked_values (map checklist_entry ts) = [].
Proof. unfold checked_values. rewrite filter_checked_fresh. reflexivity. Qed.

Lemma checked_values_toggle_fresh (ts : list tool) (i : nat) (t : tool) :
  nth_error ts i = Some t ->
  checked_values (toggle_nth i (map checklist_entry ts)) = [tool_name t].
Proof.
  unfold checked_values.
  revert i. induction ts as [|t' ts IH]; intros [|i] H; simpl in H; try discriminate.
  - inversion H; subst. simpl. rewrite filter_checked_fresh. reflexivity.
  - simpl. apply IH. exact H.
Qed.

(** X9: right after a successful catalog load every checkbox is unchecked,
    so a click on create only logs the empty selection and alerts: the
    catalog request is the only request and no session id is stored. *)
Theorem fresh_checklist_create_alerts (q : string) (ts : list tool)
    (f : request -> fetch_result) (rest : list (request -> fetch_result)) (status : Z) :
  f tools_request = Resp status (Some (catalog_json ts)) ->
  http_ok status = true ->
  let '(st, evs) := run_ops [OpLoad; OpClickCreate] (initial_state q (f :: rest)) in
  evs = [EvFetch tools_request; EvLog (JArr []); EvAlert msg_no_tools] /\
  currentSessinId st = JNull /\ net st = rest.
Proof.
  intros Hf Hok.
  assert (Hi : initCheckbox (initial_state q (f :: rest)) =
               (Normal tt, set_tool_container (map checklist_entry ts)
                              (set_net rest (initial_state q (f :: rest))),
                [EvFetch tools_request]))
    by exact (initCheckbox_catalog_eq (initial_state q (f :: rest)) ts f rest status eq_refl Hf Hok).
  simpl run_ops. unfold onDOMContentLoaded, bind at 1. rewrite Hi.
  cbn -[createSession]. unfold createSession, getSelectedTools.
  unfold bind, gets, emit, alert, console_log, ret.
  cbn -[checked_values]. rewrite checked_values_fresh. cbn. auto.
Qed.

Lemma run_ops_cons_eq (o : op) (ops : list op) (st : state) r st1 w1 :
  handler o st = (r, st1, w1) ->
  run_ops (o :: ops) st = let (st2, w2) := run_ops ops st1 in (st2, (w1 ++ w2)%list).
Proof. intros H. simpl. rewrite H. reflexivity. Qed.

(** X10: the whole flow composes. From a fresh page whose catalog answer
    lists [ts]: load, check the i-th tool [t], create, type [q] (non-empty),
    send. With 2xx answers giving a non-null session_id [v] and a response
    [rv], the page ends with [v] stored and [rv] displayed. Exactly three
    requests go out, in this order: the catalog, the creation for
    [tool_name t] with user "default_user", and the query [q] bound to [v]. *)
Theorem full_flow (q0 q : string) (ts : list tool) (i : nat) (t : tool)
    (fc fs fq : request -> fetch_result) (s1 s2 s3 : Z) (bs bq v rv : jsval) :
  nth_error ts i = Some t ->
  fc tools_request = Resp s1 (Some (catalog_json ts)) -> http_ok s1 = true ->
  fs (create_request "default_user" [tool_name t]) = Resp s2 (Some bs) -> http_ok s2 = true ->
  read_prop bs "session_id" = Some v -> js_loose_null v = false ->
  q <> "" ->
  fq (query_request "default_user" q v) = Resp s3 (Some bq) -> http_ok s3 = true ->
  read_prop bq "response" = Some rv ->
  let '(st, evs) := run_ops [OpLoad; OpToggle i; OpClickCreate; OpType q; OpClickSend]
                            (initial_state q0 [fc; fs; fq]) in
  currentSessinId st = v /\ chat_content st = nullable_dom_string rv /\ net st = [] /\
  evs = [EvFetch tools_request; EvLog (JArr [JStr (tool_name t)]);
         EvFetch (create_request "default_user" [tool_name t]);
         EvLog (JStr ("現在のセッション: " ++ js_to_string v));
         EvLog (JStr ("入力されたクエリ: " ++ q));
         EvFetch (query_request "default_user" q v)].
Proof.
  intros Hnth Hfc Hok1 Hfs Hok2 Hv Hvn Hq Hfq Hok3 Hr.
  set (st0 := initial_state q0 [fc; fs; fq]).
  assert (H1 : handler OpLoad st0 =
               (Normal tt, set_listeners_registered true
                             (set_tool_container (map checklist_entry ts) (set_net [fs; fq] st0)),
                [EvFetch tools_request])).
  { simpl. unfold onDOMContentLoaded, bind at 1.
    rewrite (initCheckbox_catalog_eq st0 ts fc [fs; fq] s1 eq_refl Hfc Hok1).
    reflexivity. }
  set (st1 := set_listeners_registered true
                (set_tool_container (map checklist_entry ts) (set_net [fs; fq] st0))).
  assert (H2 : handler (OpToggle i) st1 =
               (Normal tt, set_tool_container (toggle_nth i (map checklist_entry ts)) st1, []))
    by reflexivity.
  set (st2 := set_tool_container (toggle_nth i (map checklist_entry ts)) st1).
  assert (Hsel : checked_values (tool_container st2) = [tool_name t])
    by exact (checked_values_toggle_fresh ts i t Hnth).
  assert (H3 : handler OpClickCreate st2 = createSession st2) by reflexivity.
  rewrite (createSession_ok_eq st2 [tool_name t] fs [fq] s2 bs v Hsel
             ltac:(discriminate) eq_refl Hfs Hok2 Hv) in H3.
  set (st3 := set_currentSessinId v (set_net [fq] st2)).
  assert (H4 : handler (OpType q) st3 = (Normal tt, set_query_input q st3, []))
    by reflexivity.
  set (st4 := set_query_input q st3).
  assert (H5 : handler OpClickSend st4 = sendQuery st4) by reflexivity.
  rewrite (sendQuery_ok_eq st4 fq [] s3 bq rv Hvn Hq eq_refl Hfq Hok3 Hr) in H5.
  rewrite (run_ops_cons_eq _ _ _ _ _ _ H1), (run_ops_cons_eq _ _ _ _ _ _ H2),
    (run_ops_cons_eq _ _ _ _ _ _ H3), (run_ops_cons_eq _ _ _ _ _ _ H4),
    (run_ops_cons_eq _ _ _ _ _ _ H5).
  cbn. splits; reflexivity.
Qed.

Lemma handler_requests (o : op) (st : state) (r : request) :
  In (EvFetch r) (snd (handler o st)) -> request_shape (userId st) r.
Proof.
  unfold request_shape. destruct o as [| | |n|q]; unfold handler.
  - unfold onDOMContentLoaded, bind at 1.
    pose proof (initCheckbox_shape st) as H.
    destruct (initCheckbox st) as [[[u|e] st1] w1];
      destruct H as [_ HE]; rewrite Forall_forall in HE; mstep;
      try rewrite app_nil_r; intros Hr; left; exact (HE _ Hr r eq_refl).
  - unfold on_click. destruct (listeners_registered st); [|intros []].
    pose proof (createSession_cases st) as H.
    destruct (createSession st) as [[res st'] evs].
    destruct H as (_&_&_&_&_&_&H7&_). intros Hr. right; left.
    eexists. exact (H7 r Hr).
  - unfold on_click. destruct (listeners_registered st); [|intros []].
    pose proof (sendQuery_cases st) as H.
    destruct (sendQuery st) as [[res st'] evs].
    destruct H as (_&_&_&_&_&_&H7). intros Hr. right; right.
    destruct (H7 r Hr) as (H1&H2&H3). do 2 eexists. split; [exact H1|split; eassumption].
  - mstep. intros [].
  - mstep. intros [].
Qed.

Lemma run_ops_requests (ops : list op) (st : state) (r : request) :
  In (EvFetch r) (snd (run_ops ops st)) -> request_shape (userId st) r.
Proof.
  revert st. induction ops as [|o ops IH]; intros st; [intros []|].
  simpl. pose proof (handler_requests o st r) as Hh.
  pose proof (handler_shape o st) as Hs.
  destruct (handler o st) as [[res st1] w1].
  specialize (IH st1). destruct (run_ops ops st1) as [st2 w2].
  destruct Hs as [Hu _]. simpl in *. rewrite Hu in IH.
  intros Hin. apply in_app_or in Hin. destruct Hin as [Hin|Hin]; auto.
Qed.

(** X11: whatever the user does on a freshly loaded page, every request
    the page sends is the catalog GET, a session creation for user
    "default_user", or a query for "default_user" with a non-empty query
    text and a session id that is neither null nor undefined. *)
Theorem page_requests_shape (q : string) (n : list (request -> fetch_result))
    (ops : list op) (r : request) :
  In (EvFetch r) (snd (run_ops ops (initial_state q n))) ->
  request_shape "default_user" r.
Proof. exact (run_ops_requests ops (initial_state q n) r). Qed.

Lemma handler_chat (o : op) (st : state) :
  o <> OpClickSend -> chat_content (snd (fst (handler o st))) = chat_content st.
Proof.
  intros Ho. destruct o as [| | |n|q]; unfold handler.
  - unfold onDOMContentLoaded, bind at 1.
    pose proof (initCheckbox_shape st) as H.
    destruct (initCheckbox st) as [[[u|e] st1] w1];
      destruct H as [(_&_&H3&_) _]; mstep; exact H3.
  - unfold on_click. destruct (listeners_registered st); [|reflexivity].
    pose proof (createSession_cases st) as H.
    destruct (createSession st) as [[res st'] evs].
    destruct H as (_&H2&_). exact H2.
  - congruence.
  - reflexivity.
  - reflexivity.
Qed.

(** X12: the chat display (#chat-content-tmp) is written only by a click on
    the send button: after a page load, a create click, a checkbox click or
    an edit of the input, it shows what it showed before. *)
Theorem chat_changes_only_on_send (o : op) (st : state) :
  o <> OpClickSend -> chat_content (snd (fst (handler o st))) = chat_content st.
Proof. exact (handler_chat o st). Qed.

(** X13: a tool entry with no "name" key is still rendered: its checkbox
    gets id and value "undefined" and starts unchecked, its label reads "",
    and nothing is thrown. *)
Theorem render_tool_nameless (fs : list (string * jsval)) (st : state) :
  assoc "name" fs = None ->
  exists it, render_tool (JObj fs) st =
             (Normal tt, set_tool_container (tool_container st ++ [it]) st, []) /\
             cb_id (item_checkbox it) = "undefined" /\
             cb_value (item_checkbox it) = "undefined" /\
             cb_checked (item_checkbox it) = false /\
             item_label_for it = "undefined" /\ item_label_text it = "".
Proof.
  intros H. unfold render_tool, get_prop. cbn -[assoc]. rewrite H.
  eexists. mstep. splits; reflexivity.
Qed.

(** X14: a 2xx creation answer whose body has no "session_id" stores
    undefined; the next click on send then alerts that no session exists and
    sends nothing. *)
Theorem create_without_session_id_blocks_query (st : state) (sel : list string)
    (f : request -> fetch_result) (rest : list (request -> fetch_result))
    (status : Z) (fs : list (string * jsval)) :
  listeners_registered st = true ->
  checked_values (tool_container st) = sel -> sel <> [] ->
  net st = f :: rest ->
  f (create_request (userId st) sel) = Resp status (Some (JObj fs)) ->
  http_ok status = true -> assoc "session_id" fs = None ->
  let '(st', evs) := run_ops [OpClickCreate; OpClickSend] st in
  currentSessinId st' = JUndefined /\ net st' = rest /\
  evs = [EvLog (JArr (map JStr sel)); EvFetch (create_request (userId st) sel);
         EvAlert msg_no_session].
Proof.
  intros Hl Hsel Hne Hn Hf Hok Hs.
  assert (Hv : read_prop (JObj fs) "session_id" = Some JUndefined)
    by (cbn -[assoc]; rewrite Hs; reflexivity).
  assert (H1 : handler OpClickCreate st = createSession st)
    by (unfold handler, on_click; rewrite Hl; reflexivity).
  rewrite (createSession_ok_eq st sel f rest status (JObj fs) JUndefined
             Hsel Hne Hn Hf Hok Hv) in H1.
  set (st1 := set_currentSessinId JUndefined (set_net rest st)).
  assert (H2 : handler OpClickSend st1 = (Normal tt, st1, [EvAlert msg_no_session])).
  { unfold handler, on_click. subst st1. destruct st. simpl in *. rewrite Hl.
    reflexivity. }
  rewrite (run_ops_cons_eq _ _ _ _ _ _ H1), (run_ops_cons_eq _ _ _ _ _ _ H2).
  cbn. splits; reflexivity.
Qed.

(** X15: sendQuery never clears or edits the query input, never changes
    the stored session id and never touches the checklist, whether it
    alerts, displays an answer or throws. *)
Theorem sendQuery_keeps_input (st : state) :
  let '(_, st', _) := sendQuery st in
  query_input st' = query_input st /\ currentSessinId st' = currentSessinId st /\
  tool_container st' = tool_container st.
Proof.
  pose proof (sendQuery_cases st) as H.
  destruct (sendQuery st) as [[res st'] evs].
  destruct H as (H1&_&H3&H4&_). auto.
Qed.

(** X16: createSession never clears the checklist selection, the query
    input or the chat display, whether it alerts, stores an id or throws. *)
Theorem createSession_keeps_page (st : state) :
  let '(_, st', _) := createSession st in
  tool_container st' = tool_container st /\ query_input st' = query_input st /\
  chat_content st' = chat_content st.
Proof.
  pose proof (createSession_cases st) as H.
  destruct (createSession st) as [[res st'] evs].
  destruct H as (_&H2&H3&H4&_). auto.
Qed.

(** ** Witnesses of the further properties *)

Lemma createSession_stores_answer_witness :
  checked_values (tool_container page_before_create) = ["search"] /\
  net page_before_create = abc123_answer :: [] /\
  abc123_answer (create_request (userId page_before_create) ["search"]) =
    Resp 200 (Some (JObj [("session_id", JStr "abc123")])) /\
  http_ok 200 = true /\
  read_prop (JObj [("session_id", JStr "abc123")]) "session_id" = Some (JStr "abc123") /\
  createSession page_before_create =
    (Normal tt, set_currentSessinId (JStr "abc123") (set_net [] page_before_create),
     [EvLog (JArr (map JStr ["search"]));
      EvFetch (create_request (userId page_before_create) ["search"])]).
Proof.
  repeat (split; [reflexivity|]).
  apply (createSession_stores_answer page_before_create ["search"] abc123_answer [] 200
           (JObj [("session_id", JStr "abc123")]) (JStr "abc123")); try reflexivity.
  discriminate.
Defined.

Lemma createSession_failed_call_throws_witness :
  checked_values (tool_container page_create_500) <> [] /\
  next_fetch_fails page_create_500 /\
  fst (fst (createSession page_create_500)) =
    Thrown (mkExn "TypeError" "Cannot read properties of undefined (reading 'session_id')") /\
  currentSessinId (snd (fst (createSession page_create_500))) = currentSessinId page_create_500.
Proof.
  assert (H1 : checked_values (tool_container page_create_500) <> []) by discriminate.
  assert (H2 : next_fetch_fails page_create_500) by (intros r; reflexivity).
  split; [exact H1|split; [exact H2|]].
  exact (createSession_failed_call_throws page_create_500 H1 H2).
Defined.

Lemma sendQuery_empty_input_witness :
  js_loose_null (currentSessinId (set_query_input "" page_query)) = false /\
  query_input (set_query_input "" page_query) = "" /\
  sendQuery (set_query_input "" page_query) =
    (Normal tt, set_query_input "" page_query, [EvAlert msg_empty_query]).
Proof.
  split; [reflexivity|split; [reflexivity|]].
  apply sendQuery_empty_input; reflexivity.
Defined.

Lemma sendQuery_failed_call_throws_witness :
  js_loose_null (currentSessinId page_query_500) = false /\
  query_input page_query_500 <> "" /\
  next_fetch_fails page_query_500 /\
  fst (fst (sendQuery page_query_500)) =
    Thrown (mkExn "TypeError" "Cannot read properties of undefined (reading 'response')") /\
  chat_content (snd (fst (sendQuery page_query_500))) = chat_content page_query_500 /\
  currentSessinId (snd (fst (sendQuery page_query_500))) = currentSessinId page_query_500.
Proof.
  assert (H1 : query_input page_query_500 <> "") by discriminate.
  assert (H2 : next_fetch_fails page_query_500) by (intros r; reflexivity).
  split; [reflexivity|split; [exact H1|split; [exact H2|]]].
  apply sendQuery_failed_call_throws; [reflexivity|exact H1|exact H2].
Defined.

Lemma sendQuery_missing_response_clears_witness :
  let st := set_net [empty_answer] page_query in
  js_loose_null (currentSessinId st) = false /\
  query_input st <> "" /\
  net st = empty_answer :: [] /\
  empty_answer (query_request (userId st) (query_input st) (currentSessinId st)) =
    Resp 200 (Some (JObj [])) /\
  assoc "response" [] = None /\
  http_ok 200 = true /\
  let '(res, st', _) := sendQuery st in res = Normal tt /\ chat_content st' = "".
Proof.
  assert (Hq : query_input (set_net [empty_answer] page_query) <> "") by discriminate.
  split; [reflexivity|split; [exact Hq|]].
  repeat (split; [reflexivity|]).
  apply (sendQuery_missing_response_clears (set_net [empty_answer] page_query)
           empty_answer [] 200 []); try reflexivity.
  exact Hq.
Defined.

Lemma initCheckbox_without_tools_array_witness :
  let st := initial_state "" [empty_answer] in
  net st = empty_answer :: [] /\
  empty_answer tools_request = Resp 200 (Some (JObj [])) /\
  http_ok 200 = true /\
  match read_prop (JObj []) "tools" with Some (JArr _) => False | _ => True end /\
  let '(res, st', _) := initCheckbox st in
  (exists m, res = Thrown (mkExn "TypeError" m)) /\ tool_container st' = tool_container st.
Proof.
  split; [reflexivity|split; [reflexivity|split; [reflexivity|split; [exact I|]]]].
  apply (initCheckbox_without_tools_array (initial_state "" [empty_answer])
           empty_answer [] 200 (JObj [])); reflexivity.
Defined.

Lemma initCheckbox_partial_render_witness :
  let ans := respond 200 (JObj [("tools", JArr (map tool_json [search_tool] ++ [JNull]))]) in
  let st := initial_state "" [ans] in
  net st = ans :: [] /\
  ans tools_request =
    Resp 200 (Some (JObj [("tools", JArr (map tool_json [search_tool] ++ JNull :: []))])) /\
  http_ok 200 = true /\
  let '(res, st', _) := initCheckbox st in
  res = Thrown (mkExn "TypeError" "Cannot read properties of null (reading 'name')") /\
  tool_container st' = (tool_container st ++ map checklist_entry [search_tool])%list.
Proof.
  split; [reflexivity|split; [reflexivity|split; [reflexivity|]]].
  apply (initCheckbox_partial_render
           (initial_state "" [respond 200 (JObj [("tools", JArr (map tool_json [search_tool] ++ [JNull]))])])
           (respond 200 (JObj [("tools", JArr (map tool_json [search_tool] ++ [JNull]))]))
           [] 200 [search_tool] []); reflexivity.
Defined.

Lemma failed_load_leaves_page_dead_witness :
  let st := initial_state "hello" [server_error] in
  listeners_registered st = false /\
  next_fetch_fails st /\
  let st1 := snd (fst (handler OpLoad st)) in
  (exists e, fst (fst (handler OpLoad st)) = Thrown e) /\
  listeners_registered st1 = false /\
  forall ops, ~ In OpLoad ops ->
    snd (run_ops ops st1) = [] /\
    currentSessinId (fst (run_ops ops st1)) = currentSessinId st1 /\
    chat_content (fst (run_ops ops st1)) = chat_content st1.
Proof.
  assert (H : next_fetch_fails (initial_state "hello" [server_error]))
    by (intros r; reflexivity).
  split; [reflexivity|split; [exact H|]].
  exact (failed_load_leaves_page_dead (initial_state "hello" [server_error]) eq_refl H).
Defined.

Lemma fresh_checklist_create_alerts_witness :
  catalog_answer tools_request = Resp 200 (Some (catalog_json [search_tool])) /\
  http_ok 200 = true /\
  let '(st, evs) := run_ops [OpLoad; OpClickCreate] (initial_state "hello" [catalog_answer]) in
  evs = [EvFetch tools_request; EvLog (JArr []); EvAlert msg_no_tools] /\
  currentSessinId st = JNull /\ net st = [].
Proof.
  split; [reflexivity|split; [reflexivity|]].
  exact (fresh_checklist_create_alerts "hello" [search_tool] catalog_answer [] 200
           eq_refl eq_refl).
Defined.

Lemma full_flow_witness :
  nth_error [search_tool] 0 = Some search_tool /\
  catalog_answer tools_request = Resp 200 (Some (catalog_json [search_tool])) /\
  abc123_answer (create_request "default_user" [tool_name search_tool]) =
    Resp 200 (Some (JObj [("session_id", JStr "abc123")])) /\
  read_prop (JObj [("session_id", JStr "abc123")]) "session_id" = Some (JStr "abc123") /\
  "hello" <> "" /\
  hello_answer (query_request "default_user" "hello" (JStr "abc123")) =
    Resp 200 (Some (JObj [("response", JStr "hello back")])) /\
  read_prop (JObj [("response", JStr "hello back")]) "response" = Some (JStr "hello back") /\
  let '(st, evs) := run_ops [OpLoad; OpToggle 0; OpClickCreate; OpType "hello"; OpClickSend]
                            (initial_state "" [catalog_answer; abc123_answer; hello_answer]) in
  currentSessinId st = JStr "abc123" /\
  chat_content st = nullable_dom_string (JStr "hello back") /\ net st = [] /\
  evs = [EvFetch tools_request; EvLog (JArr [JStr (tool_name search_tool)]);
         EvFetch (create_request "default_user" [tool_name search_tool]);
         EvLog (JStr ("現在のセッション: " ++ js_to_string (JStr "abc123")));
         EvLog (JStr ("入力されたクエリ: " ++ "hello"));
         EvFetch (query_request "default_user" "hello" (JStr "abc123"))].
Proof.
  assert (Hq : "hello" <> "") by discriminate.
  do 4 (split; [reflexivity|]). split; [exact Hq|].
  do 2 (split; [reflexivity|]).
  exact (full_flow "" "hello" [search_tool] 0 search_tool catalog_answer abc123_answer
           hello_answer 200 200 200 (JObj [("session_id", JStr "abc123")])
           (JObj [("response", JStr "hello back")]) (JStr "abc123") (JStr "hello back")
           eq_refl eq_refl eq_refl eq_refl eq_refl eq_refl eq_refl Hq eq_refl eq_refl eq_refl).
Defined.

Lemma page_requests_shape_witness :
  In (EvFetch tools_request)
     (snd (run_ops [OpLoad] (initial_state "" [catalog_answer]))) /\
  request_shape "default_user" tools_request.
Proof.
  assert (H : In (EvFetch tools_request)
                 (snd (run_ops [OpLoad] (initial_state "" [catalog_answer]))))
    by (vm_compute; left; reflexivity).
  split; [exact H|].
  exact (page_requests_shape "" [catalog_answer] [OpLoad] tools_request H).
Defined.

Lemma chat_changes_only_on_send_witness :
  OpClickCreate <> OpClickSend /\
  chat_content (snd (fst (handler OpClickCreate page_query))) = chat_content page_query.
Proof.
  assert (H : OpClickCreate <> OpClickSend) by discriminate.
  split; [exact H|]. exact (chat_changes_only_on_send OpClickCreate page_query H).
Defined.

Lemma render_tool_nameless_witness :
  assoc "name" [("description", JStr "web search")] = None /\
  exists it, render_tool (JObj [("description", JStr "web search")]) page_no_session =
             (Normal tt, set_tool_container (tool_container page_no_session ++ [it])
                                            page_no_session, []) /\
             cb_id (item_checkbox it) = "undefined" /\
             cb_value (item_checkbox it) = "undefined" /\
             cb_checked (item_checkbox it) = false /\
             item_label_for it = "undefined" /\ item_label_text it = "".
Proof.
  split; [reflexivity|].
  exact (render_tool_nameless [("description", JStr "web search")] page_no_session eq_refl).
Defined.

Lemma create_without_session_id_blocks_query_witness :
  let st := set_net [empty_answer] page_before_create in
  listeners_registered st = true /\
  checked_values (tool_container st) = ["search"] /\ ["search"] <> [] /\
  net st = empty_answer :: [] /\
  empty_answer (create_request (userId st) ["search"]) = Resp 200 (Some (JObj [])) /\
  http_ok 200 = true /\ assoc "session_id" [] = None /\
  let '(st', evs) := run_ops [OpClickCreate; OpClickSend] st in
  currentSessinId st' = JUndefined /\ net st' = [] /\
  evs = [EvLog (JArr (map JStr ["search"])); EvFetch (create_request (userId st) ["search"]);
         EvAlert msg_no_session].
Proof.
  assert (Hne : ["search"] <> []) by discriminate.
  split; [reflexivity|split; [reflexivity|split; [exact Hne|]]].
  do 4 (split; [reflexivity|]).
  exact (create_without_session_id_blocks_query (set_net [empty_answer] page_before_create)
           ["search"] empty_answer [] 200 [] eq_refl eq_refl Hne eq_refl eq_refl eq_refl eq_refl).
Defined.
